(** * PneumoScan: a shallow embedding of the web handlers

    The development follows the three Python sources:
    - [app.py]            (module [App]):      /predict, /chat, /download-report
    - [utils/app.py]      (module [UtilsApp]): the single-model /predict
    - [utils/pdf_report.py] (module [PdfReport]): the report builder

    Conventions of the embedding.
    - Python [str] is [string]; a character is an [ascii], read as a code
      point below 256.  The literals of the sources that hold characters
      outside that range (emoji, bullet, dash) are given by their UTF-8
      bytes.
    - In the handlers Python [float] scores are exact rationals ([Q]):
      comparisons, [1 - p], [p * 100] and [round(_, 2)] are computed without
      binary rounding error, and [round] is round-half-to-even on the
      decimal digits.  Module [Float64] gives the same stage-2 arithmetic in
      binary64, for the properties on which the two differ.
    - A [dict] and a JSON object are [gmap string value].
    - The process state (the global [latest_analysis], the upload folder on
      disk, the calls made to the two models and to the chat backend) is the
      record [World], threaded through the handlers by the state monad [M].
    - Library calls whose code is not part of the repository (PIL decoding,
      the Keras models, uuid4, the clock, the Groq client, Matplotlib's
      chart rendering, ReportLab's image loading) are fields of the record [Env]; a call that can raise returns
      a sum or an option. *)

From Stdlib Require Import ZArith QArith Qround Qabs Lqa String Ascii List Lia.
From Stdlib Require Import PrimFloat FloatOps SpecFloat Uint63.
From stdpp Require Import base gmap strings.
Import ListNotations.

(** ** Python built-ins used by the sources *)

Module Py.

(** [str.isspace] on one character (code points below 256). *)
Definition isspace (c : ascii) : bool :=
  let n := N_of_ascii c in
  ((9 <=? n) && (n <=? 13) || (28 <=? n) && (n <=? 32)
   || (n =? 133) || (n =? 160))%N.

Fixpoint lstrip (s : string) : string :=
  match s with
  | EmptyString => EmptyString
  | String c s' => if isspace c then lstrip s' else s
  end.

Fixpoint rstrip (s : string) : string :=
  match s with
  | EmptyString => EmptyString
  | String c s' =>
      match rstrip s' with
      | EmptyString => if isspace c then EmptyString else String c EmptyString
      | r => String c r
      end
  end.

(** [s.strip()] *)
Definition strip (s : string) : string := rstrip (lstrip s).

(** [str.lower] on one character: A-Z, and the Latin-1 capitals. *)
Definition lower_char (c : ascii) : ascii :=
  let n := N_of_ascii c in
  if ((65 <=? n) && (n <=? 90)
      || (192 <=? n) && (n <=? 222) && negb (n =? 215))%N
  then ascii_of_N (n + 32) else c.

Fixpoint lower (s : string) : string :=
  match s with
  | EmptyString => EmptyString
  | String c s' => String (lower_char c) (lower s')
  end.

(** ["." in s] *)
Fixpoint contains_dot (s : string) : bool :=
  match s with
  | EmptyString => false
  | String c s' => Ascii.eqb c "."%char || contains_dot s'
  end.

(** [s.rsplit(".", 1)]: the text before and after the last dot, or the
    whole string alone when there is no dot. *)
Fixpoint rsplit_dot_pair (s : string) : option (string * string) :=
  match s with
  | EmptyString => None
  | String c s' =>
      match rsplit_dot_pair s' with
      | Some (a, b) => Some (String c a, b)
      | None => if Ascii.eqb c "."%char then Some (EmptyString, s') else None
      end
  end.

Definition rsplit_dot (s : string) : list string :=
  match rsplit_dot_pair s with
  | Some (a, b) => [a; b]
  | None => [s]
  end.

(** Truth value of a string: [bool(s)]. *)
Definition truthy (s : string) : bool :=
  match s with EmptyString => false | _ => true end.

(** [a or b] on strings. *)
Definition str_or (a b : string) : string := if truthy a then a else b.

(** [s.startswith("/")], [s.endswith("/")] and [os.path.join(a, b)]. *)
Definition starts_with_slash (s : string) : bool :=
  match s with String c _ => Ascii.eqb c "/"%char | EmptyString => false end.

Fixpoint ends_with_slash (s : string) : bool :=
  match s with
  | EmptyString => false
  | String c EmptyString => Ascii.eqb c "/"%char
  | String _ s' => ends_with_slash s'
  end.

Definition path_join (a b : string) : string :=
  if starts_with_slash b then b
  else if negb (truthy a) || ends_with_slash a then a +:+ b
  else a +:+ "/" +:+ b.

(** Round-half-to-even of a rational to an integer. *)
Definition round_half_even (x : Q) : Z :=
  let f := Qfloor x in
  match Qcompare (x - inject_Z f) (1 # 2) with
  | Lt => f
  | Gt => (f + 1)%Z
  | Eq => if Z.even f then f else (f + 1)%Z
  end.

(** [round(x, ndigits)] for [ndigits >= 0]. *)
Definition round (x : Q) (ndigits : nat) : Q :=
  let scale := (10 ^ Z.of_nat ndigits)%Z in
  Qmake (round_half_even (x * inject_Z scale)) (Z.to_pos scale).

(** The comparisons [a < b], [a > b] and [a >= b] of two numbers. *)
Definition ltb (a b : Q) : bool := if Qlt_le_dec a b then true else false.
Definition gtb (a b : Q) : bool := ltb b a.
Definition geb (a b : Q) : bool := negb (ltb a b).

(** [max(a, b)]: the first argument unless the second is larger. *)
Definition max (a b : Q) : Q := if gtb b a then b else a.

(** The characters a string literal escapes. *)
Definition nl : string := String (ascii_of_N 10) EmptyString.
Definition dquote : string := String (ascii_of_N 34) EmptyString.

End Py.

(** ** The stage-2 percentages in binary64

    Lines 117-125 of app.py on the doubles the code computes with:
    [pred * 100] and [(1 - pred) * 100] are IEEE products and differences,
    and [round(x, 2)] rounds the exact value of the double [x] half-to-even
    to two decimals and returns the double nearest to that decimal. *)

Module Float64.

(** The exact value of a finite double. *)
Definition exact (x : float) : option Q :=
  match Prim2SF x with
  | S754_zero _ => Some 0%Q
  | S754_finite s m e =>
      let v := (inject_Z (Z.pos m) * Qpower 2 e)%Q in
      Some (if s then (- v)%Q else v)
  | _ => None
  end.

Definition signbit (x : float) : bool :=
  match Prim2SF x with
  | S754_zero s | S754_infinity s | S754_finite s _ _ => s
  | S754_nan => false
  end.

(** The magnitude of [x] in hundredths, rounded half-to-even; magnitudes
    from 2^40 on, infinities and NaN are outside the model. *)
Definition hundredths (x : float) : option Z :=
  match exact x with
  | Some q =>
      if Qle_bool (Qabs q) (inject_Z (2 ^ 40))
      then Some (Py.round_half_even (Qabs q * inject_Z 100))
      else None
  | None => None
  end.

(** The double nearest to [n / 100], with the given sign. *)
Definition of_hundredths (negative : bool) (n : Z) : float :=
  let r := (PrimFloat.of_uint63 (Uint63.of_Z n) / 100)%float in
  if negative then PrimFloat.opp r else r.

(** [round(x, 2)] *)
Definition round2 (x : float) : option float :=
  match hundredths x with
  | Some n => Some (of_hundredths (signbit x) n)
  | None => None
  end.

(** [label] of lines 117-121. *)
Definition label (pred : float) : string :=
  if PrimFloat.ltb 0.5 pred then "PNEUMONIA" else "NORMAL".

(** [confidence] of lines 117-122. *)
Definition confidence (pred : float) : option float :=
  if PrimFloat.ltb 0.5 pred
  then round2 (pred * 100)%float
  else round2 ((1 - pred) * 100)%float.

(** [pneumonia_pct] and [normal_pct] of lines 124-125. *)
Definition pneumonia_pct (pred : float) : option float :=
  round2 (pred * 100)%float.

Definition normal_pct (pred : float) : option float :=
  round2 ((1 - pred) * 100)%float.

End Float64.

(** ** Values, files, the process state and the environment *)

(** A JSON or dict value as the handlers produce and receive them. *)
Inductive value : Type :=
| VNull
| VStr (s : string)
| VNum (q : Q).

(** A tensor: the batch of flattened, normalised images. *)
Definition tensor : Type := list (list Q).

(** The array a Keras model returns: its last dimension and its rows. *)
Record ndarray : Type := { shape_last : nat; rows : list (list Q) }.

(** ReportLab flowables, as [generate_report] appends them. *)
Inductive color : Type := RED | GREEN.

Inductive flowable : Type :=
| Paragraph (text : string) (style : string)
| HRFlowable
| Spacer (height_mm : Z)
| Table (data : list (list value)) (result_color : option color)
| ChartImage (normal_prob pneumonia_prob : Q)
| XrayImage (path : string).

(** A file of the upload folder. *)
Inductive file : Type :=
| Uploaded (content : list Byte.byte)
| ReportPdf (elements : list flowable).

(** Calls to the external models, in the order they were made. *)
Inductive call : Type :=
| CallXray (t : tensor)
| CallPneumonia (t : tensor)
| CallModel (t : tensor)
| CallGroq (system_prompt user_msg : string).

Record World : Type := {
  latest_analysis : gmap string value;   (* the global of app.py *)
  disk : gmap string file;               (* files by path *)
  ticks : nat;                           (* uuid4 and clock reads so far *)
  calls : list call;                     (* newest first *)
}.

(** A raised exception, by its text. *)
Definition exn : Type := string.

Record Env : Type := {
  UPLOAD_FOLDER : string;
  uuid4_hex : nat -> string;
  strftime_now : nat -> string -> string;
  (* Image.open(path).convert("RGB").resize((224, 224)) as bytes 0..255 *)
  image_open_rgb_224 : list Byte.byte -> exn + list Z;
  xray_model_predict : tensor -> exn + ndarray;
  pneumonia_model_predict : tensor -> exn + ndarray;
  model_predict : tensor -> exn + ndarray;
  (* None when GROQ_API_KEY is unset or the client failed to initialise;
     a call returns the contents of response.choices *)
  groq_client : option (string -> string -> exn + list string);
  (* str(x) of a number *)
  str_of_number : Q -> string;
  (* whether RLImage(path, ...) constructs without raising; the
     constructor is lazy: it records the path and leaves the file unread *)
  rl_image_ok : string -> file -> bool;
  (* whether doc.build can read the file at the path as an image *)
  rl_image_loads : string -> file -> bool;
  (* whether the chart of the two values (pneumonia, normal) renders:
     savefig raises when a bar or its label falls too far outside the axes *)
  chart_renders : Q -> Q -> bool;
}.

Inductive body : Type :=
| Json (o : gmap string value)
| Template (name : string)
| Attachment (download_name : string) (content : file)
| InternalServerError.

Record response : Type := { resp_body : body; resp_status : Z }.

(** [jsonify(o), code] and the default status. *)
Definition jsonify (o : gmap string value) (code : Z) : response :=
  {| resp_body := Json o; resp_status := code |}.

(** The state monad of the handlers. *)
Definition M (A : Type) : Type := World -> A * World.

#[export] Instance M_ret : MRet M := fun A a w => (a, w).
#[export] Instance M_bind : MBind M :=
  fun A B f m w => let '(a, w') := m w in f a w'.

Definition get_world : M World := fun w => (w, w).

Definition tick : M nat :=
  fun w => (ticks w,
            {| latest_analysis := latest_analysis w; disk := disk w;
               ticks := S (ticks w); calls := calls w |}).

Definition write_file (path : string) (f : file) : M unit :=
  fun w => (tt,
            {| latest_analysis := latest_analysis w;
               disk := <[path := f]> (disk w);
               ticks := ticks w; calls := calls w |}).

Definition record_call (c : call) : M unit :=
  fun w => (tt,
            {| latest_analysis := latest_analysis w; disk := disk w;
               ticks := ticks w; calls := c :: calls w |}).

Definition set_latest_analysis (d : gmap string value) : M unit :=
  fun w => (tt,
            {| latest_analysis := d; disk := disk w;
               ticks := ticks w; calls := calls w |}).

(** [os.path.exists(path)] *)
Definition path_exists (path : string) : M bool :=
  fun w => (bool_decide (is_Some (disk w !! path)), w).

(** [uuid.uuid4().hex] *)
Definition uuid4 (e : Env) : M string :=
  n ← tick; mret (uuid4_hex e n).

(** [datetime.now().strftime(fmt)] *)
Definition now_strftime (e : Env) (fmt : string) : M string :=
  n ← tick; mret (strftime_now e n fmt).

(** Truth value, [str(v)] and [v == s] of a dynamically typed value. *)
Definition value_truthy (v : value) : bool :=
  match v with
  | VNull => false
  | VStr s => Py.truthy s
  | VNum q => negb (Qeq_bool q 0)
  end.

Definition value_str (e : Env) (v : value) : string :=
  match v with
  | VNull => "None"
  | VStr s => s
  | VNum q => str_of_number e q
  end.

Definition value_is_str (v : value) (s : string) : bool :=
  match v with VStr t => String.eqb t s | _ => false end.

(** [d.get(key, default)] *)
Definition dict_get (d : gmap string value) (key : string) (default : value)
  : value :=
  match d !! key with Some v => v | None => default end.

(** [float(a[0][0])], an IndexError when the array is too small. *)
Definition item00 (a : ndarray) : exn + Q :=
  match rows a with
  | (x :: _) :: _ => inr x
  | _ => inl "index 0 is out of bounds"
  end.

Definition item01 (a : ndarray) : exn + Q :=
  match rows a with
  | (_ :: y :: _) :: _ => inr y
  | _ => inl "index 1 is out of bounds"
  end.

Record FileStorage : Type := { filename : string; stream : list Byte.byte }.

(** The multipart request of /predict: [request.form] and [request.files]. *)
Record PredictRequest : Type := {
  form : gmap string string;
  files : gmap string FileStorage;
}.

(** [request.form.get(key, "")] *)
Definition form_get (request : PredictRequest) (key : string) : string :=
  match form request !! key with Some s => s | None => "" end.

(** ** utils/pdf_report.py

    A report is the list of flowables handed to [doc.build]; paragraph
    styles are named, table styles keep the one colour that depends on the
    input.  [RLImage(path)] is lazy, so a file that is not a readable
    image makes [doc.build] raise, after the [try] around the constructor. *)

Module PdfReport.

(** [_build_chart]: the two bars, Normal first.  Formatting a value that
    is not a number with [.1f] raises, and so does [savefig] on values it
    cannot render. *)
Definition build_chart (e : Env) (pneumonia_prob normal_prob : value)
  : exn + flowable :=
  match normal_prob, pneumonia_prob with
  | VNum n, VNum p =>
      if chart_renders e p n then inr (ChartImage n p)
      else inl "Image size is too large"
  | _, _ => inl "unsupported format string"
  end.

(** Whether [doc.build] can draw a flowable: an image constructed from a
    path is opened now. *)
Definition image_loads (e : Env) (w : World) (x : flowable) : bool :=
  match x with
  | XrayImage p =>
      match disk w !! p with
      | Some f => rl_image_loads e p f
      | None => false
      end
  | _ => true
  end.

(** [doc.build(elements)]: the PDF is written once every flowable is
    drawn; when one raises nothing is written. *)
Definition doc_build (e : Env) (output_path : string)
    (elements : list flowable) : M (exn + unit) :=
  w ← get_world;
  if forallb (image_loads e w) elements
  then write_file output_path (ReportPdf elements);; mret (inr tt)
  else mret (inl "cannot identify image file").

Definition generate_report (e : Env) (output_path : string)
    (patient_name patient_age notes prediction confidence
       pneumonia_prob normal_prob : value)
    (image_path : option string) : M (exn + unit) :=
  (* Header and date *)
  now ← now_strftime e "%B %d, %Y  •  %I:%M %p";
  let elements :=
    [ Paragraph "🫁 PneumoScan" "ReportTitle";
      Paragraph "AI Diagnostic Report" "ReportSubtitle";
      HRFlowable;
      Paragraph ("<b>Date &amp; Time:</b>  " +:+ now) "Body";
      Spacer 3 ] in
  (* Patient info *)
  let info_data :=
    [ [VStr "Patient Name";
       if value_truthy patient_name then patient_name else VStr "N/A"];
      [VStr "Age";
       if value_truthy patient_age
       then VStr (value_str e patient_age) else VStr "N/A"];
      [VStr "Notes"; if value_truthy notes then notes else VStr "—"] ] in
  let elements :=
    elements ++ [Paragraph "Patient Information" "Section";
                 Table info_data None; Spacer 4] in
  (* Analysis result *)
  let result_color :=
    if value_is_str prediction "PNEUMONIA" then RED else GREEN in
  let result_label := prediction in
  let result_conf := value_str e confidence +:+ "%" in
  let result_data :=
    [ [VStr "Prediction"; result_label];
      [VStr "Confidence"; VStr result_conf] ] in
  let elements :=
    elements ++ [Paragraph "Analysis Result" "Section";
                 Table result_data (Some result_color); Spacer 5] in
  (* Confidence chart *)
  match build_chart e pneumonia_prob normal_prob with
  | inl err => mret (inl err)
  | inr chart_img =>
      let elements :=
        elements ++ [Paragraph "Confidence Chart" "Section";
                     chart_img; Spacer 5] in
      (* X-ray image *)
      w ← get_world;
      let elements :=
        match image_path with
        | Some p =>
            match disk w !! p with
            | Some f =>
                elements
                ++ [Paragraph "Uploaded X-ray" "Section";
                    if rl_image_ok e p f then XrayImage p
                    else Paragraph "<i>Unable to embed image.</i>" "Body";
                    Spacer 6]
            | None => elements
            end
        | None => elements
        end in
      (* Footer *)
      let elements :=
        elements
        ++ [HRFlowable;
            Paragraph "Made with ❤️ by Aditya" "Footer";
            Paragraph "This report is generated by PneumoScan AI and is for informational purposes only." "Footer"] in
      doc_build e output_path elements
  end.

End PdfReport.

(** ** app.py *)

Module App.

Definition ALLOWED_EXTENSIONS : gset string :=
  {[ "png"; "jpg"; "jpeg"; "bmp"; "webp" ]}.

Definition allowed_file (filename : string) : bool :=
  Py.contains_dot filename
  && match Py.rsplit_dot filename with
     | _ :: ext :: _ => bool_decide (Py.lower ext ∈ ALLOWED_EXTENSIONS)
     | _ => false
     end.

(** Resize, RGB, normalise, expand dims; [inl] when PIL raises. *)
Definition preprocess_image (e : Env) (image_path : string)
  : M (exn + tensor) :=
  w ← get_world;
  mret (match disk w !! image_path with
        | Some (Uploaded content) =>
            match image_open_rgb_224 e content with
            | inr img => inr [map (fun b => (inject_Z b / 255)%Q) img]
            | inl err => inl err
            end
        | Some (ReportPdf _) => inl "cannot identify image file"
        | None => inl "No such file or directory"
        end).

Definition XRAY_THRESHOLD : Q := (1 # 2)%Q.

Definition index : M response :=
  mret {| resp_body := Template "index.html"; resp_status := 200 |}.

Definition invalid_upload : response :=
  jsonify
    {[ "error" :=
         VStr "Please upload a valid image (png, jpg, jpeg, bmp, webp)." ]}
    400.

Definition could_not_process : response :=
  jsonify
    (<[ "prediction" := VStr "Invalid Image" ]>
     {[ "message" :=
          VStr "Could not process the uploaded file. Please upload a valid image." ]})
    200.

Definition not_an_xray : response :=
  jsonify
    (<[ "prediction" := VStr "Invalid Image" ]>
     {[ "message" :=
          VStr "This does not appear to be a chest X-ray. Please upload a valid chest X-ray image." ]})
    200.

(** [float(model.predict(processed, verbose=0)[0][0])] *)
Definition score00 (r : exn + ndarray) : exn + Q :=
  match r with inl err => inl err | inr a => item00 a end.

Definition predict (e : Env) (request : PredictRequest) : M response :=
  (* validate inputs *)
  let patient_name := Py.strip (form_get request "patient_name") in
  let patient_age := Py.strip (form_get request "patient_age") in
  let notes := Py.strip (form_get request "notes") in
  match files request !! "xray" with
  | None => mret invalid_upload
  | Some file =>
    if negb (Py.truthy (filename file)) || negb (allowed_file (filename file))
    then mret invalid_upload
    else
      (* save uploaded file *)
      let ext := Py.lower (nth 1 (Py.rsplit_dot (filename file)) "") in
      hex ← uuid4 e;
      let filename := hex +:+ "." +:+ ext in
      let filepath := Py.path_join (UPLOAD_FOLDER e) filename in
      write_file filepath (Uploaded (stream file));;
      (* preprocess once, reuse for both models *)
      processed ← preprocess_image e filepath;
      match processed with
      | inl _ => mret could_not_process
      | inr processed =>
        (* stage 1: X-ray detector *)
        record_call (CallXray processed);;
        match score00 (xray_model_predict e processed) with
        | inl err =>
            mret (jsonify
                    {[ "error" := VStr ("X-ray detection failed: " +:+ err) ]}
                    500)
        | inr xray_pred =>
          if Py.ltb xray_pred XRAY_THRESHOLD then mret not_an_xray
          else
            (* stage 2: pneumonia classifier *)
            record_call (CallPneumonia processed);;
            match score00 (pneumonia_model_predict e processed) with
            | inl err =>
                mret (jsonify
                        {[ "error" :=
                             VStr ("Pneumonia prediction failed: " +:+ err) ]}
                        500)
            | inr pred =>
              let '(label, confidence) :=
                if Py.gtb pred (1 # 2)
                then ("PNEUMONIA", Py.round (pred * 100)%Q 2)
                else ("NORMAL", Py.round ((1 - pred) * 100)%Q 2) in
              let pneumonia_pct := Py.round (pred * 100)%Q 2 in
              let normal_pct := Py.round ((1 - pred) * 100)%Q 2 in
              (* store context for the chat *)
              timestamp ← now_strftime e "%Y-%m-%d %H:%M:%S";
              set_latest_analysis
                (<[ "prediction" := VStr label ]>
                 (<[ "confidence" := VNum confidence ]>
                 (<[ "patient_name" :=
                       VStr (Py.str_or patient_name "the patient") ]>
                 (<[ "pneumonia_prob" := VNum pneumonia_pct ]>
                 (<[ "normal_prob" := VNum normal_pct ]>
                 {[ "timestamp" := VStr timestamp ]})))));;
              mret (jsonify
                (<[ "prediction" := VStr label ]>
                 (<[ "confidence" := VNum confidence ]>
                 (<[ "pneumonia_prob" := VNum pneumonia_pct ]>
                 (<[ "normal_prob" := VNum normal_pct ]>
                 (<[ "image_filename" := VStr filename ]>
                 (<[ "patient_name" := VStr patient_name ]>
                 (<[ "patient_age" := VStr patient_age ]>
                 {[ "notes" := VStr notes ]})))))))
                200)
            end
        end
      end
  end.

Definition assistant_unavailable : gmap string value :=
  {[ "reply" :=
       VStr "AI assistant is temporarily unavailable. Please try again later." ]}.

(** The report lines interpolated into the system prompt. *)
Definition context_of (e : Env) (la : gmap string value) : string :=
  if bool_decide (la ≠ ∅) then
    "Current Analysis Report:" +:+ Py.nl
    +:+ "- Patient: " +:+ value_str e (dict_get la "patient_name" VNull) +:+ Py.nl
    +:+ "- Prediction: " +:+ value_str e (dict_get la "prediction" VNull) +:+ Py.nl
    +:+ "- Confidence: " +:+ value_str e (dict_get la "confidence" VNull) +:+ "%" +:+ Py.nl
    +:+ "- Pneumonia Probability: "
    +:+ value_str e (dict_get la "pneumonia_prob" VNull) +:+ "%" +:+ Py.nl
    +:+ "- Normal Probability: "
    +:+ value_str e (dict_get la "normal_prob" VNull) +:+ "%" +:+ Py.nl
    +:+ "- Analysis Time: " +:+ value_str e (dict_get la "timestamp" VNull) +:+ Py.nl
  else "No analysis report is currently available." +:+ Py.nl.

Definition system_prompt_of (context_str : string) : string :=
  "You are PneumoBot, an expert AI medical assistant for lung health, "
  +:+ "built into the PneumoScan AI diagnostic platform." +:+ Py.nl +:+ Py.nl
  +:+ context_str +:+ Py.nl
  +:+ "Your Rules:" +:+ Py.nl
  +:+ "1. Answer questions about pneumonia, lung health, and the current report." +:+ Py.nl
  +:+ "2. Explain the AI prediction clearly to the user." +:+ Py.nl
  +:+ "3. If Prediction is PNEUMONIA, suggest consulting a pulmonologist immediately." +:+ Py.nl
  +:+ "4. Provide general advice on precautions (rest, fluids, isolation) if relevant." +:+ Py.nl
  +:+ "5. You may mention common medicine categories (e.g. antibiotics, antivirals) as "
  +:+ "general information if asked, but NEVER prescribe specific drugs or dosages." +:+ Py.nl
  +:+ "6. Always include a short disclaimer: " +:+ Py.dquote
  +:+ "I am an AI, not a doctor. Please consult a specialist." +:+ Py.dquote +:+ Py.nl
  +:+ "7. Keep answers concise (under 3-4 sentences) and empathetic." +:+ Py.nl.

(** /chat; [request_json] is the JSON object of the body.  A message that
    is not a string has no [strip]: the AttributeError is not caught. *)
Definition chat (e : Env) (request_json : gmap string value) : M response :=
  match groq_client e with
  | None => mret (jsonify assistant_unavailable 200)
  | Some client =>
    match dict_get request_json "message" (VStr "") with
    | VStr message =>
      let user_msg := Py.strip message in
      if negb (Py.truthy user_msg)
      then mret (jsonify {[ "reply" := VStr "Please say something." ]} 400)
      else
        w ← get_world;
        let context_str := context_of e (latest_analysis w) in
        let system_prompt := system_prompt_of context_str in
        record_call (CallGroq system_prompt user_msg);;
        match client system_prompt user_msg with
        | inr (reply :: _) => mret (jsonify {[ "reply" := VStr reply ]} 200)
        | _ => mret (jsonify assistant_unavailable 500)
        end
    | _ => mret {| resp_body := InternalServerError; resp_status := 500 |}
    end
  end.

(** /download-report; [data] is the JSON object of the body. *)
Definition download_report (e : Env) (data : gmap string value) : M response :=
  let patient_name := dict_get data "patient_name" (VStr "N/A") in
  let patient_age := dict_get data "patient_age" (VStr "N/A") in
  let notes := dict_get data "notes" (VStr "") in
  let prediction := dict_get data "prediction" (VStr "N/A") in
  let confidence := dict_get data "confidence" (VNum 0) in
  let pneumonia_prob := dict_get data "pneumonia_prob" (VNum 0) in
  let normal_prob := dict_get data "normal_prob" (VNum 0) in
  let image_filename := dict_get data "image_filename" (VStr "") in
  (* os.path.join raises on a truthy value that is not a string *)
  match (if value_truthy image_filename
         then match image_filename with
              | VStr name => inr (Some (Py.path_join (UPLOAD_FOLDER e) name))
              | _ => inl "expected str"
              end
         else inr None) with
  | inl _ => mret {| resp_body := InternalServerError; resp_status := 500 |}
  | inr image_path =>
    w ← get_world;
    let image_path :=
      match image_path with
      | Some p => if bool_decide (is_Some (disk w !! p)) then Some p else None
      | None => None
      end in
    hex ← uuid4 e;
    let report_name := "report_" +:+ substring 0 8 hex +:+ ".pdf" in
    let report_path := Py.path_join (UPLOAD_FOLDER e) report_name in
    r ← PdfReport.generate_report e report_path patient_name patient_age
          notes prediction confidence pneumonia_prob normal_prob image_path;
    match r with
    | inl _ => mret {| resp_body := InternalServerError; resp_status := 500 |}
    | inr _ =>
      w ← get_world;
      match disk w !! report_path with
      | Some f =>
          mret {| resp_body := Attachment "PneumoScan_Report.pdf" f;
                  resp_status := 200 |}
      | None => mret {| resp_body := InternalServerError; resp_status := 500 |}
      end
    end
  end.

End App.

(** ** utils/app.py *)

Module UtilsApp.

Definition ALLOWED_EXTENSIONS : gset string :=
  {[ "png"; "jpg"; "jpeg"; "bmp"; "webp" ]}.

Definition allowed_file (filename : string) : bool :=
  Py.contains_dot filename
  && match Py.rsplit_dot filename with
     | _ :: ext :: _ => bool_decide (Py.lower ext ∈ ALLOWED_EXTENSIONS)
     | _ => false
     end.

Definition preprocess_image (e : Env) (image_path : string)
  : M (exn + tensor) :=
  w ← get_world;
  mret (match disk w !! image_path with
        | Some (Uploaded content) =>
            match image_open_rgb_224 e content with
            | inr img => inr [map (fun b => (inject_Z b / 255)%Q) img]
            | inl err => inl err
            end
        | Some (ReportPdf _) => inl "cannot identify image file"
        | None => inl "No such file or directory"
        end).

Definition invalid_upload : response :=
  jsonify
    {[ "error" :=
         VStr "Please upload a valid image (png, jpg, jpeg, bmp, webp)." ]}
    400.

Definition server_error (err : exn) : response :=
  jsonify {[ "error" := VStr err ]} 500.

(** The two probabilities read off the model's output: one sigmoid
    output, or two softmax outputs (normal first). *)
Definition probabilities (prediction : ndarray) : exn + Q * Q :=
  if Nat.eqb (shape_last prediction) 1 then
    match item00 prediction with
    | inr pneumonia_prob => inr (pneumonia_prob, (1 - pneumonia_prob)%Q)
    | inl err => inl err
    end
  else
    match item00 prediction, item01 prediction with
    | inr normal_prob, inr pneumonia_prob => inr (pneumonia_prob, normal_prob)
    | inl err, _ => inl err
    | _, inl err => inl err
    end.

Definition predict (e : Env) (request : PredictRequest) : M response :=
  (* validate inputs *)
  let patient_name := Py.strip (form_get request "patient_name") in
  let patient_age := Py.strip (form_get request "patient_age") in
  let notes := Py.strip (form_get request "notes") in
  match files request !! "xray" with
  | None => mret invalid_upload
  | Some file =>
    if negb (Py.truthy (filename file)) || negb (allowed_file (filename file))
    then mret invalid_upload
    else
      (* save uploaded file *)
      let ext := Py.lower (nth 1 (Py.rsplit_dot (filename file)) "") in
      hex ← uuid4 e;
      let filename := hex +:+ "." +:+ ext in
      let filepath := Py.path_join (UPLOAD_FOLDER e) filename in
      write_file filepath (Uploaded (stream file));;
      (* run prediction *)
      processed ← preprocess_image e filepath;
      match processed with
      | inl err => mret (server_error err)
      | inr processed =>
        record_call (CallModel processed);;
        match model_predict e processed with
        | inl err => mret (server_error err)
        | inr prediction =>
          match probabilities prediction with
          | inl err => mret (server_error err)
          | inr (pneumonia_prob, normal_prob) =>
            let label :=
              if Py.geb pneumonia_prob (1 # 2) then "PNEUMONIA" else "NORMAL" in
            let confidence :=
              Py.round (Py.max pneumonia_prob normal_prob * 100)%Q 2 in
            mret (jsonify
              (<[ "prediction" := VStr label ]>
               (<[ "confidence" := VNum confidence ]>
               (<[ "pneumonia_prob" :=
                     VNum (Py.round (pneumonia_prob * 100)%Q 2) ]>
               (<[ "normal_prob" := VNum (Py.round (normal_prob * 100)%Q 2) ]>
               (<[ "image_filename" := VStr filename ]>
               (<[ "patient_name" := VStr patient_name ]>
               (<[ "patient_age" := VStr patient_age ]>
               {[ "notes" := VStr notes ]})))))))
              200)
          end
        end
      end
  end.

End UtilsApp.

(** ** Notions used to state the properties *)

(** The tensor [preprocess_image] builds from the decoded bytes. *)
Definition processed_of (img : list Z) : tensor :=
  [map (fun b => (inject_Z b / 255)%Q) img].

(** The name and the path under which /predict saves an upload. *)
Definition saved_name (e : Env) (w : World) (file : FileStorage) : string :=
  uuid4_hex e (ticks w) +:+ "."
  +:+ Py.lower (nth 1 (Py.rsplit_dot (filename file)) "").

Definition saved_path (e : Env) (w : World) (file : FileStorage) : string :=
  Py.path_join (UPLOAD_FOLDER e) (saved_name e w file).

(** The request carries an upload that passes validation and decodes. *)
Definition accepted (e : Env) (request : PredictRequest)
    (file : FileStorage) (img : list Z) : Prop :=
  files request !! "xray" = Some file
  /\ App.allowed_file (filename file) = true
  /\ image_open_rgb_224 e (stream file) = inr img.

(** The state after the upload was saved and the gate model was called. *)
Definition world_after_gate (e : Env) (w : World) (file : FileStorage)
    (t : tensor) : World :=
  {| latest_analysis := latest_analysis w;
     disk := <[saved_path e w file := Uploaded (stream file)]> (disk w);
     ticks := S (ticks w);
     calls := CallXray t :: calls w |}.

(** Label and confidence of stage 2 of app.py, as its [if] computes them. *)
Definition stage2_result (p : Q) : string * Q :=
  if Py.gtb p (1 # 2)
  then ("PNEUMONIA", Py.round (p * 100) 2)
  else ("NORMAL", Py.round ((1 - p) * 100) 2).

(** The state right after the module is loaded. *)
Definition startup (d : gmap string file) : World :=
  {| latest_analysis := ∅; disk := d; ticks := 0; calls := [] |}.

(** A model output of shape (1, 1). *)
Definition arr1 (q : Q) : ndarray := {| shape_last := 1; rows := [[q]] |}.

(** A deterministic environment for worked examples: the gate and the
    classifier answer with fixed scores, an empty upload does not decode,
    the report builder can read non-empty uploads only, and the chart
    renders for percentages between 0 and 100. *)
Definition demo_env (gate clf : Q)
    (groq : option (string -> string -> exn + list string)) : Env :=
  {| UPLOAD_FOLDER := "static/uploads";
     uuid4_hex := fun _ => "0123456789abcdef0123456789abcdef";
     strftime_now := fun _ _ => "2024-01-01 00:00:00";
     image_open_rgb_224 :=
       fun content =>
         match content with
         | [] => inl "cannot identify image file"
         | _ => inr [255%Z; 0%Z]
         end;
     xray_model_predict := fun _ => inr (arr1 gate);
     pneumonia_model_predict := fun _ => inr (arr1 clf);
     model_predict := fun _ => inr (arr1 clf);
     groq_client := groq;
     str_of_number := fun _ => "0.0";
     rl_image_ok := fun _ _ => true;
     rl_image_loads :=
       fun _ f => match f with Uploaded (_ :: _) => true | _ => false end;
     chart_renders :=
       fun p n =>
         Qle_bool 0 p && Qle_bool p 100 && Qle_bool 0 n && Qle_bool n 100 |}.

Definition demo_file (name : string) (content : list Byte.byte) : FileStorage :=
  {| filename := name; stream := content |}.

Definition demo_request (patient : string) (f : FileStorage) : PredictRequest :=
  {| form := {[ "patient_name" := patient ]}; files := {[ "xray" := f ]} |}.

(** Symbolic execution of a handler: unfold the monad and the state
    primitives, leaving maps, strings and numbers alone. *)
Ltac run_handler :=
  cbv [mbind M_bind mret M_ret uuid4 tick write_file PdfReport.doc_build
       App.preprocess_image
       UtilsApp.preprocess_image get_world record_call now_strftime
       set_latest_analysis path_exists disk latest_analysis ticks calls
       negb orb andb].

(** The state after /predict drew a name and saved the upload. *)
Definition world_saved (e : Env) (w : World) (file : FileStorage) : World :=
  {| latest_analysis := latest_analysis w;
     disk := <[saved_path e w file := Uploaded (stream file)]> (disk w);
     ticks := S (ticks w);
     calls := calls w |}.

(** The requests the process serves, and a run over a sequence of them. *)
Inductive request : Type :=
| GetIndex
| PostPredict (r : PredictRequest)
| PostChat (request_json : gmap string value)
| PostDownloadReport (data : gmap string value).

Definition handle (e : Env) (rq : request) : M response :=
  match rq with
  | GetIndex => App.index
  | PostPredict r => App.predict e r
  | PostChat j => App.chat e j
  | PostDownloadReport d => App.download_report e d
  end.

Fixpoint serve (e : Env) (rqs : list request) (w : World) : World :=
  match rqs with
  | [] => w
  | rq :: rest => serve e rest (handle e rq w).2
  end.

(** What the latest-analysis slot may hold: nothing, or a verdict NORMAL or
    PNEUMONIA for a named patient. *)
Definition slot_ok (la : gmap string value) : Prop :=
  la = ∅
  \/ exists label name,
       la !! "prediction" = Some (VStr label)
       /\ (label = "NORMAL" \/ label = "PNEUMONIA")
       /\ la !! "patient_name" = Some (VStr name)
       /\ name <> "".

(** The file name contains a dot. *)
Definition has_dot (s : string) : Prop :=
  In "."%char (list_ascii_of_string s).

(** The part of the file name after its last dot, lowercased, is one of the
    allowed extensions. *)
Definition extension_allowed (fn : string) : Prop :=
  exists stem ext,
    fn = stem +:+ "." +:+ ext
    /\ ~ has_dot ext
    /\ Py.lower ext ∈ App.ALLOWED_EXTENSIONS.

(** The string is empty or holds whitespace only. *)
Definition blank (s : string) : Prop :=
  forall c, In c (list_ascii_of_string s) -> Py.isspace c = true.

(** A chat backend that always answers with one choice. *)
Definition demo_groq : string -> string -> exn + list string :=
  fun _ _ => inr ["I am an AI, not a doctor."].

(** A field of a JSON payload is absent or a string, absent or a number. *)
Definition str_field (data : gmap string value) (key : string) : Prop :=
  match data !! key with
  | None | Some (VStr _) => True
  | Some _ => False
  end.

Definition num_field (data : gmap string value) (key : string) : Prop :=
  match data !! key with
  | None | Some (VNum _) => True
  | Some _ => False
  end.

(** A payload of /download-report whose fields have the types /predict
    gives them. *)
Definition well_formed_payload (data : gmap string value) : Prop :=
  str_field data "patient_name" /\ str_field data "patient_age"
  /\ str_field data "notes" /\ str_field data "prediction"
  /\ num_field data "confidence" /\ num_field data "pneumonia_prob"
  /\ num_field data "normal_prob" /\ str_field data "image_filename".

(** The uploaded image a payload names, when image_filename is non-empty
    and the file exists in the upload folder: its path and the file. *)
Definition report_image (e : Env) (data : gmap string value) (w : World)
  : option (string * file) :=
  match data !! "image_filename" with
  | Some (VStr name) =>
      if Py.truthy name
      then match disk w !! Py.path_join (UPLOAD_FOLDER e) name with
           | Some f => Some (Py.path_join (UPLOAD_FOLDER e) name, f)
           | None => None
           end
      else None
  | _ => None
  end.



(** A payload as /predict returns it, naming a stored upload. *)
Definition demo_payload (image_filename : string) : gmap string value :=
  <[ "prediction" := VStr "NORMAL" ]>
  (<[ "confidence" := VNum (88 # 1) ]>
  (<[ "pneumonia_prob" := VNum (12 # 1) ]>
  (<[ "normal_prob" := VNum (88 # 1) ]>
  (<[ "image_filename" := VStr image_filename ]>
  (<[ "patient_name" := VStr "Ada" ]>
  (<[ "patient_age" := VStr "36" ]>
  {[ "notes" := VStr "" ]})))))).

(** Environments for worked examples in which a model fails: [None] stands
    for a call that raises. *)
Definition failing_env (gate clf : option Q) : Env :=
  {| UPLOAD_FOLDER := "static/uploads";
     uuid4_hex := fun _ => "0123456789abcdef0123456789abcdef";
     strftime_now := fun _ _ => "2024-01-01 00:00:00";
     image_open_rgb_224 :=
       fun content =>
         match content with
         | [] => inl "cannot identify image file"
         | _ => inr [255%Z; 0%Z]
         end;
     xray_model_predict :=
       fun _ => match gate with
                | Some s => inr (arr1 s)
                | None => inl "OOM when allocating tensor"
                end;
     pneumonia_model_predict :=
       fun _ => match clf with
                | Some p => inr (arr1 p)
                | None => inl "OOM when allocating tensor"
                end;
     model_predict :=
       fun _ => match clf with
                | Some p => inr (arr1 p)
                | None => inl "OOM when allocating tensor"
                end;
     groq_client := Some (fun _ _ => inl "connection error");
     str_of_number := fun _ => "0.0";
     rl_image_ok := fun _ _ => true;
     rl_image_loads := fun _ _ => false;
     chart_renders := fun _ _ => false |}.

(** The request is a POST to /predict. *)
Definition is_predict (rq : request) : bool :=
  match rq with PostPredict _ => true | _ => false end.

(** The text a report shows for a string field of the payload: the field,
    or the fallback when the field is missing or empty. *)
Definition shown_field (data : gmap string value) (key fallback : string)
  : string :=
  match data !! key with
  | Some (VStr s) => if Py.truthy s then s else fallback
  | _ => fallback
  end.

(** A number field of the payload, 0 when missing. *)
Definition num_of_field (data : gmap string value) (key : string) : Q :=
  match data !! key with
  | Some (VNum q) => q
  | _ => 0%Q
  end.

(** The path under which /download-report writes the PDF. *)
Definition report_path (e : Env) (w : World) : string :=
  Py.path_join (UPLOAD_FOLDER e)
    ("report_" +:+ substring 0 8 (uuid4_hex e (ticks w)) +:+ ".pdf").

(** An environment whose single model has two softmax outputs, normal
    first. *)
Definition softmax_env (normal pneumonia : Q) : Env :=
  {| UPLOAD_FOLDER := "static/uploads";
     uuid4_hex := fun _ => "0123456789abcdef0123456789abcdef";
     strftime_now := fun _ _ => "2024-01-01 00:00:00";
     image_open_rgb_224 :=
       fun content =>
         match content with
         | [] => inl "cannot identify image file"
         | _ => inr [255%Z; 0%Z]
         end;
     xray_model_predict := fun _ => inr (arr1 1);
     pneumonia_model_predict :=
       fun _ => inr {| shape_last := 2; rows := [[normal; pneumonia]] |};
     model_predict :=
       fun _ => inr {| shape_last := 2; rows := [[normal; pneumonia]] |};
     groq_client := None;
     str_of_number := fun _ => "0.0";
     rl_image_ok := fun _ _ => true;
     rl_image_loads := fun _ _ => true;
     chart_renders := fun _ _ => true |}.



(** ** Facts about the built-ins and the paths of /predict *)

Lemma ltb_lt (a b : Q) : Py.ltb a b = true <-> (a < b)%Q.
Proof.
  unfold Py.ltb. destruct (Qlt_le_dec a b) as [H | H]; split; intros H'; try done.
  exfalso. apply (Qlt_not_le _ _ H'), H.
Qed.

Lemma ltb_ge (a b : Q) : Py.ltb a b = false <-> (b <= a)%Q.
Proof.
  unfold Py.ltb. destruct (Qlt_le_dec a b) as [H | H]; split; intros H'; try done.
  exfalso. apply (Qlt_not_le _ _ H), H'.
Qed.

Lemma inject_Z_sub (a b : Z) : inject_Z (a - b) = (inject_Z a - inject_Z b)%Q.
Proof. unfold Z.sub. rewrite inject_Z_plus, inject_Z_opp. reflexivity. Qed.

Lemma floor_unique (x : Q) (n : Z) :
  (inject_Z n <= x)%Q -> (x < inject_Z (n + 1))%Q -> Qfloor x = n.
Proof.
  intros Hlo Hhi.
  pose proof (Qfloor_le x) as H1. pose proof (Qlt_floor x) as H2.
  assert (n < Qfloor x + 1)%Z.
  { rewrite Zlt_Qlt. eapply Qle_lt_trans; eauto. }
  assert (Qfloor x < n + 1)%Z.
  { rewrite Zlt_Qlt. eapply Qle_lt_trans; eauto. }
  lia.
Qed.

Lemma round_half_even_comp (x y : Q) :
  (x == y)%Q -> Py.round_half_even x = Py.round_half_even y.
Proof.
  intros H. unfold Py.round_half_even.
  rewrite (Qfloor_comp _ _ H).
  assert (Hc : (x - inject_Z (Qfloor y) ?= 1 # 2)%Q = (y - inject_Z (Qfloor y) ?= 1 # 2)%Q).
  { apply Qcompare_comp; [ rewrite H; reflexivity | reflexivity ]. }
  rewrite Hc. reflexivity.
Qed.

Lemma round_comp (x y : Q) (n : nat) : (x == y)%Q -> Py.round x n = Py.round y n.
Proof.
  intros H. unfold Py.round. f_equal.
  apply round_half_even_comp. rewrite H. reflexivity.
Qed.

(** Rounding to even is symmetric about half of an even integer. *)
Lemma round_half_even_reflect (c : Z) (x : Q) :
  Z.even c = true ->
  Py.round_half_even (inject_Z c - x) = (c - Py.round_half_even x)%Z.
Proof.
  intros Hc. unfold Py.round_half_even.
  pose proof (Qfloor_le x) as H1. pose proof (Qlt_floor x) as H2.
  set (f := Qfloor x) in *.
  rewrite inject_Z_plus in H2. change (inject_Z 1) with 1%Q in H2.
  destruct (Qeq_dec x (inject_Z f)) as [Hint | Hfrac].
  - assert (Hf : Qfloor (inject_Z c - x) = (c - f)%Z).
    { apply floor_unique; rewrite ?inject_Z_plus, ?inject_Z_sub; change (inject_Z 1) with 1%Q. all: lra. }
    rewrite Hf.
    assert (Hx : (x - inject_Z f ?= 1 # 2)%Q = Lt) by (rewrite <- Qlt_alt; lra).
    assert (Hy : (inject_Z c - x - inject_Z (c - f) ?= 1 # 2)%Q = Lt)
      by (rewrite <- Qlt_alt, inject_Z_sub; lra).
    rewrite Hx, Hy. reflexivity.
  - assert (Hlt : (inject_Z f < x)%Q).
    { destruct (Qle_lt_or_eq _ _ H1) as [? | Heq]; [done | ].
      exfalso. apply Hfrac. symmetry. exact Heq. }
    assert (Hf : Qfloor (inject_Z c - x) = (c - f - 1)%Z).
    { apply floor_unique; rewrite ?inject_Z_plus, ?inject_Z_sub; change (inject_Z 1) with 1%Q; lra. }
    rewrite Hf.
    destruct (x - inject_Z f ?= 1 # 2)%Q eqn:Hx.
    + apply Qeq_alt in Hx.
      assert (Hy : (inject_Z c - x - inject_Z (c - f - 1) ?= 1 # 2)%Q = Eq).
      { rewrite <- Qeq_alt, !inject_Z_sub. change (inject_Z 1) with 1%Q. lra. }
      rewrite Hy.
      replace (c - f - 1)%Z with (c - (f + 1))%Z by lia.
      rewrite !Z.even_sub, Z.even_add, Hc. change (Z.even 1) with false.
      destruct (Z.even f); simpl; lia.
    + apply Qlt_alt in Hx.
      assert (Hy : (inject_Z c - x - inject_Z (c - f - 1) ?= 1 # 2)%Q = Gt).
      { rewrite <- Qgt_alt, !inject_Z_sub. change (inject_Z 1) with 1%Q. lra. }
      rewrite Hy. lia.
    + apply Qgt_alt in Hx.
      assert (Hy : (inject_Z c - x - inject_Z (c - f - 1) ?= 1 # 2)%Q = Lt).
      { rewrite <- Qlt_alt, !inject_Z_sub. change (inject_Z 1) with 1%Q. lra. }
      rewrite Hy. lia.
Qed.

Lemma allowed_file_truthy (fn : string) :
  App.allowed_file fn = true -> Py.truthy fn = true.
Proof. destruct fn; [discriminate | reflexivity]. Qed.

Lemma predict_gate_closed e request w file img s :
  accepted e request file img ->
  App.score00 (xray_model_predict e (processed_of img)) = inr s ->
  Py.ltb s App.XRAY_THRESHOLD = true ->
  App.predict e request w
  = (App.not_an_xray, world_after_gate e w file (processed_of img)).
Proof.
  intros (Hf & Ha & Hi) Hs Hlt. destruct w as [la d t c].
  unfold App.predict. rewrite Hf, (allowed_file_truthy _ Ha), Ha.
  run_handler. rewrite lookup_insert_eq, Hi.
  fold (processed_of img). rewrite Hs, Hlt. reflexivity.
Qed.

Lemma predict_gate_open e request w file img s p :
  accepted e request file img ->
  App.score00 (xray_model_predict e (processed_of img)) = inr s ->
  Py.ltb s App.XRAY_THRESHOLD = false ->
  App.score00 (pneumonia_model_predict e (processed_of img)) = inr p ->
  App.predict e request w
  = (jsonify
       (<[ "prediction" := VStr (stage2_result p).1 ]>
        (<[ "confidence" := VNum (stage2_result p).2 ]>
        (<[ "pneumonia_prob" := VNum (Py.round (p * 100) 2) ]>
        (<[ "normal_prob" := VNum (Py.round ((1 - p) * 100) 2) ]>
        (<[ "image_filename" := VStr (saved_name e w file) ]>
        (<[ "patient_name" := VStr (Py.strip (form_get request "patient_name")) ]>
        (<[ "patient_age" := VStr (Py.strip (form_get request "patient_age")) ]>
        {[ "notes" := VStr (Py.strip (form_get request "notes")) ]})))))))
       200,
     {| latest_analysis :=
          <[ "prediction" := VStr (stage2_result p).1 ]>
          (<[ "confidence" := VNum (stage2_result p).2 ]>
          (<[ "patient_name" :=
                VStr (Py.str_or (Py.strip (form_get request "patient_name"))
                        "the patient") ]>
          (<[ "pneumonia_prob" := VNum (Py.round (p * 100) 2) ]>
          (<[ "normal_prob" := VNum (Py.round ((1 - p) * 100) 2) ]>
          {[ "timestamp" :=
               VStr (strftime_now e (S (ticks w)) "%Y-%m-%d %H:%M:%S") ]}))));
        disk := <[saved_path e w file := Uploaded (stream file)]> (disk w);
        ticks := S (S (ticks w));
        calls := CallPneumonia (processed_of img)
                 :: CallXray (processed_of img) :: calls w |}).
Proof.
  intros (Hf & Ha & Hi) Hs Hge Hp. destruct w as [la d t c].
  unfold App.predict. rewrite Hf, (allowed_file_truthy _ Ha), Ha.
  run_handler. rewrite lookup_insert_eq, Hi.
  fold (processed_of img). rewrite Hs, Hge, Hp.
  unfold stage2_result. destruct (Py.gtb p (1 # 2)); reflexivity.
Qed.


Lemma gtb_lt (a b : Q) : Py.gtb a b = true <-> (b < a)%Q.
Proof. apply ltb_lt. Qed.

Lemma gtb_le (a b : Q) : Py.gtb a b = false <-> (a <= b)%Q.
Proof. apply ltb_ge. Qed.

Lemma geb_le (a b : Q) : Py.geb a b = true <-> (b <= a)%Q.
Proof. unfold Py.geb. rewrite negb_true_iff. apply ltb_ge. Qed.

Lemma geb_lt (a b : Q) : Py.geb a b = false <-> (a < b)%Q.
Proof. unfold Py.geb. rewrite negb_false_iff. apply ltb_lt. Qed.

Lemma stage2_label_cases (p : Q) :
  ((1 # 2 < p)%Q /\ (stage2_result p).1 = "PNEUMONIA")
  \/ ((p <= 1 # 2)%Q /\ (stage2_result p).1 = "NORMAL").
Proof.
  unfold stage2_result. destruct (Py.gtb p (1 # 2)) eqn:H.
  - left. split; [by apply gtb_lt | done].
  - right. split; [by apply gtb_le | done].
Qed.

Lemma stage2_confidence_max (p : Q) :
  (stage2_result p).2 = Py.round (Py.max p (1 - p) * 100) 2.
Proof.
  unfold stage2_result, Py.max.
  destruct (Py.gtb p (1 # 2)) eqn:Hp; destruct (Py.gtb (1 - p) p) eqn:Hm;
    cbn [snd]; try reflexivity.
  - apply gtb_lt in Hp, Hm. lra.
  - apply gtb_le in Hp, Hm. apply round_comp. lra.
Qed.

Lemma round2_complement (p : Q) :
  (Py.round (p * 100) 2 + Py.round ((1 - p) * 100) 2 == 100)%Q.
Proof.
  unfold Py.round. change (10 ^ Z.of_nat 2)%Z with 100%Z.
  change (Z.to_pos 100) with 100%positive.
  assert (H : Py.round_half_even ((1 - p) * 100 * inject_Z 100)
              = (10000 - Py.round_half_even (p * 100 * inject_Z 100))%Z).
  { rewrite <- (round_half_even_reflect 10000) by reflexivity.
    apply round_half_even_comp.
    change (inject_Z 10000) with 10000%Q. change (inject_Z 100) with 100%Q. lra. }
  rewrite H. unfold Qeq, Qplus. cbn [Qnum Qden]. lia.
Qed.

(** C1: for a gate score s of an accepted upload: if s < 0.5 the response is
    the Invalid Image payload ('This does not appear to be a chest X-ray'),
    the gate call is the only model call made (stage 2 is not run) and the
    latest-analysis slot is unchanged; if s >= 0.5 the pneumonia classifier
    is called on the same preprocessed tensor. *)
Theorem predict_gate e request w file img s :
  accepted e request file img ->
  App.score00 (xray_model_predict e (processed_of img)) = inr s ->
  let r := (App.predict e request w).1 in
  let w' := (App.predict e request w).2 in
  ((s < 1 # 2)%Q ->
     r = jsonify
           (<[ "prediction" := VStr "Invalid Image" ]>
            {[ "message" :=
                 VStr "This does not appear to be a chest X-ray. Please upload a valid chest X-ray image." ]})
           200
     /\ calls w' = CallXray (processed_of img) :: calls w
     /\ latest_analysis w' = latest_analysis w)
  /\ ((1 # 2 <= s)%Q ->
     calls w' = CallPneumonia (processed_of img)
                :: CallXray (processed_of img) :: calls w).
Proof.
  intros Hacc Hs. cbv zeta. split.
  - intros Hlt. apply ltb_lt in Hlt.
    rewrite (predict_gate_closed _ _ _ _ _ _ Hacc Hs Hlt). auto.
  - intros Hge. apply ltb_ge in Hge.
    change (Py.ltb s App.XRAY_THRESHOLD = false) in Hge.
    destruct (App.score00 (pneumonia_model_predict e (processed_of img)))
      as [err | p] eqn:Hp.
    + destruct Hacc as (Hf & Ha & Hi). destruct w as [la d t c].
      unfold App.predict. rewrite Hf, (allowed_file_truthy _ Ha), Ha.
      run_handler. rewrite lookup_insert_eq, Hi.
      fold (processed_of img). rewrite Hs, Hge, Hp. reflexivity.
    + rewrite (predict_gate_open _ _ _ _ _ _ _ Hacc Hs Hge Hp). reflexivity.
Qed.

Lemma predict_gate_witness :
  accepted (demo_env (42 # 100) (12 # 100) None)
    (demo_request "Ada" (demo_file "scan.PNG" [Byte.x01]))
    (demo_file "scan.PNG" [Byte.x01]) [255%Z; 0%Z]
  /\ calls (App.predict (demo_env (42 # 100) (12 # 100) None)
              (demo_request "Ada" (demo_file "scan.PNG" [Byte.x01]))
              (startup ∅)).2
     = [CallXray (processed_of [255%Z; 0%Z])].
Proof.
  assert (Hacc : accepted (demo_env (42 # 100) (12 # 100) None)
            (demo_request "Ada" (demo_file "scan.PNG" [Byte.x01]))
            (demo_file "scan.PNG" [Byte.x01]) [255%Z; 0%Z])
    by (repeat split; vm_compute; reflexivity).
  split; [exact Hacc | ].
  apply (predict_gate _ _ (startup ∅) _ _ (42 # 100) Hacc eq_refl).
  reflexivity.
Defined.

(** ** Stage 2 and the stored analysis *)

Lemma predict_success_response e request w file img s p :
  accepted e request file img ->
  App.score00 (xray_model_predict e (processed_of img)) = inr s ->
  (1 # 2 <= s)%Q ->
  App.score00 (pneumonia_model_predict e (processed_of img)) = inr p ->
  exists o,
    (App.predict e request w).1 = jsonify o 200
    /\ o !! "prediction" = Some (VStr (stage2_result p).1)
    /\ o !! "confidence" = Some (VNum (stage2_result p).2)
    /\ o !! "pneumonia_prob" = Some (VNum (Py.round (p * 100) 2))
    /\ o !! "normal_prob" = Some (VNum (Py.round ((1 - p) * 100) 2))
    /\ o !! "patient_name"
       = Some (VStr (Py.strip (form_get request "patient_name"))).
Proof.
  intros Hacc Hs Hge Hp. apply ltb_ge in Hge.
  change (Py.ltb s App.XRAY_THRESHOLD = false) in Hge.
  rewrite (predict_gate_open _ _ _ _ _ _ _ Hacc Hs Hge Hp).
  eexists. split; [reflexivity | ].
  repeat split; by simplify_map_eq.
Qed.

(** C2: for a classifier score p in [0,1] the returned label is PNEUMONIA
    exactly when p > 0.5 and NORMAL otherwise, and the returned confidence
    is round(max(p, 1-p) * 100, 2). *)
Theorem predict_label_confidence e request w file img s p :
  accepted e request file img ->
  App.score00 (xray_model_predict e (processed_of img)) = inr s ->
  (1 # 2 <= s)%Q ->
  App.score00 (pneumonia_model_predict e (processed_of img)) = inr p ->
  (0 <= p <= 1)%Q ->
  exists o,
    (App.predict e request w).1 = jsonify o 200
    /\ (o !! "prediction" = Some (VStr "PNEUMONIA") <-> (1 # 2 < p)%Q)
    /\ (o !! "prediction" = Some (VStr "NORMAL") <-> ~ (1 # 2 < p)%Q)
    /\ o !! "confidence"
       = Some (VNum (Py.round (Py.max p (1 - p) * 100) 2)).
Proof.
  intros Hacc Hs Hge Hp _.
  destruct (predict_success_response e request w _ _ _ _ Hacc Hs Hge Hp)
    as (o & Hr & Hl & Hc & _).
  exists o. split; [exact Hr | ].
  rewrite Hl, Hc, stage2_confidence_max.
  destruct (stage2_label_cases p) as [[Hlt ->] | [Hle ->]].
  - split; [by split | ]. split; [ | reflexivity].
    split; [discriminate | intros Hn; by destruct Hn].
  - split; [ | split; [ | reflexivity]].
    + split; [discriminate | intros Hlt; lra].
    + split; [intros _ Hlt; lra | reflexivity].
Qed.

Lemma predict_label_confidence_witness :
  exists o,
    (App.predict (demo_env (92 # 100) (12 # 100) None)
       (demo_request "Ada" (demo_file "scan.png" [Byte.x01]))
       (startup ∅)).1 = jsonify o 200
    /\ (o !! "prediction" = Some (VStr "PNEUMONIA") <-> (1 # 2 < 12 # 100)%Q)
    /\ (o !! "prediction" = Some (VStr "NORMAL") <-> ~ (1 # 2 < 12 # 100)%Q)
    /\ o !! "confidence"
       = Some (VNum (Py.round (Py.max (12 # 100) (1 - (12 # 100)) * 100) 2)).
Proof.
  apply (predict_label_confidence (demo_env (92 # 100) (12 # 100) None)
           (demo_request "Ada" (demo_file "scan.png" [Byte.x01]))
           (startup ∅) (demo_file "scan.png" [Byte.x01]) [255%Z; 0%Z]
           (92 # 100) (12 # 100)).
  - repeat split; vm_compute; reflexivity.
  - reflexivity.
  - vm_compute. discriminate.
  - reflexivity.
  - split; vm_compute; discriminate.
Defined.

(** ** The latest-analysis slot *)

(** The dict stage 2 stores. *)
Lemma predict_success_slot e request w file img s p :
  accepted e request file img ->
  App.score00 (xray_model_predict e (processed_of img)) = inr s ->
  (1 # 2 <= s)%Q ->
  App.score00 (pneumonia_model_predict e (processed_of img)) = inr p ->
  latest_analysis (App.predict e request w).2
  = <[ "prediction" := VStr (stage2_result p).1 ]>
    (<[ "confidence" := VNum (stage2_result p).2 ]>
    (<[ "patient_name" :=
          VStr (Py.str_or (Py.strip (form_get request "patient_name"))
                  "the patient") ]>
    (<[ "pneumonia_prob" := VNum (Py.round (p * 100) 2) ]>
    (<[ "normal_prob" := VNum (Py.round ((1 - p) * 100) 2) ]>
    {[ "timestamp" :=
         VStr (strftime_now e (S (ticks w)) "%Y-%m-%d %H:%M:%S") ]})))).
Proof.
  intros Hacc Hs Hge Hp. apply ltb_ge in Hge.
  change (Py.ltb s App.XRAY_THRESHOLD = false) in Hge.
  rewrite (predict_gate_open _ _ _ _ _ _ _ Hacc Hs Hge Hp). reflexivity.
Qed.

(** C4 (as amended): after a successful /predict the slot holds exactly the
    six fields prediction, confidence, patient_name, pneumonia_prob,
    normal_prob and timestamp, whatever it held before; the four result
    fields are those of the response; patient_age, notes and image_filename
    are not stored. *)
Theorem predict_stores_chat_context e request w file img s p :
  accepted e request file img ->
  App.score00 (xray_model_predict e (processed_of img)) = inr s ->
  (1 # 2 <= s)%Q ->
  App.score00 (pneumonia_model_predict e (processed_of img)) = inr p ->
  let la' := latest_analysis (App.predict e request w).2 in
  exists o,
    (App.predict e request w).1 = jsonify o 200
    /\ dom la' = {[ "prediction"; "confidence"; "patient_name";
                    "pneumonia_prob"; "normal_prob"; "timestamp" ]}
    /\ la' !! "prediction" = o !! "prediction"
    /\ la' !! "confidence" = o !! "confidence"
    /\ la' !! "pneumonia_prob" = o !! "pneumonia_prob"
    /\ la' !! "normal_prob" = o !! "normal_prob"
    /\ la' !! "patient_name"
       = Some (VStr (Py.str_or (Py.strip (form_get request "patient_name"))
                       "the patient"))
    /\ la' !! "timestamp"
       = Some (VStr (strftime_now e (S (ticks w)) "%Y-%m-%d %H:%M:%S"))
    /\ la' !! "patient_age" = None
    /\ la' !! "notes" = None
    /\ la' !! "image_filename" = None.
Proof.
  intros Hacc Hs Hge Hp. cbv zeta.
  destruct (predict_success_response e request w _ _ _ _ Hacc Hs Hge Hp)
    as (o & Hr & Hl & Hc & Ha & Hb & _).
  exists o. split; [exact Hr | ].
  rewrite (predict_success_slot _ _ _ _ _ _ _ Hacc Hs Hge Hp), Hl, Hc, Ha, Hb.
  split.
  { rewrite !dom_insert_L, dom_singleton_L. set_solver. }
  repeat split; by simplify_map_eq.
Qed.

Lemma predict_stores_chat_context_witness :
  dom (latest_analysis
         (App.predict (demo_env (92 # 100) (12 # 100) None)
            (demo_request "Ada" (demo_file "scan.png" [Byte.x01]))
            (startup ∅)).2)
  = {[ "prediction"; "confidence"; "patient_name";
       "pneumonia_prob"; "normal_prob"; "timestamp" ]}.
Proof.
  destruct (predict_stores_chat_context
              (demo_env (92 # 100) (12 # 100) None)
              (demo_request "Ada" (demo_file "scan.png" [Byte.x01]))
              (startup ∅) (demo_file "scan.png" [Byte.x01]) [255%Z; 0%Z]
              (92 # 100) (12 # 100))
    as (o & _ & Hdom & _).
  - repeat split; vm_compute; reflexivity.
  - reflexivity.
  - vm_compute. discriminate.
  - reflexivity.
  - exact Hdom.
Defined.

(** C4 (as stated) fails: a successful /predict leaves no patient_age,
    notes or image_filename in the slot. *)
Lemma predict_slot_lacks_fields :
  let run := App.predict (demo_env (92 # 100) (12 # 100) None)
               (demo_request "Ada" (demo_file "scan.png" [Byte.x01]))
               (startup ∅) in
  resp_status run.1 = 200%Z
  /\ (exists o, resp_body run.1 = Json o
                /\ o !! "prediction" = Some (VStr "NORMAL")
                /\ is_Some (o !! "patient_age"))
  /\ latest_analysis run.2 !! "patient_age" = None
  /\ latest_analysis run.2 !! "notes" = None
  /\ latest_analysis run.2 !! "image_filename" = None.
Proof.
  cbv zeta. split; [reflexivity | ]. split.
  - eexists. split; [reflexivity | ]. split; [reflexivity | ].
    eexists. reflexivity.
  - repeat split; reflexivity.
Qed.

(** /predict either leaves the slot alone or stores a stage-2 verdict. *)
Lemma predict_slot_cases e request w :
  latest_analysis (App.predict e request w).2 = latest_analysis w
  \/ exists p ts,
       latest_analysis (App.predict e request w).2
       = <[ "prediction" := VStr (stage2_result p).1 ]>
         (<[ "confidence" := VNum (stage2_result p).2 ]>
         (<[ "patient_name" :=
               VStr (Py.str_or (Py.strip (form_get request "patient_name"))
                       "the patient") ]>
         (<[ "pneumonia_prob" := VNum (Py.round (p * 100) 2) ]>
         (<[ "normal_prob" := VNum (Py.round ((1 - p) * 100) 2) ]>
         {[ "timestamp" := VStr ts ]})))).
Proof.
  destruct w as [la d t c]. unfold App.predict.
  destruct (files request !! "xray") as [file | ]; [ | by left].
  destruct (negb (Py.truthy (filename file))
            || negb (App.allowed_file (filename file))); [by left | ].
  run_handler. rewrite lookup_insert_eq.
  destruct (image_open_rgb_224 e (stream file)) as [err | img]; [by left | ].
  destruct (App.score00 (xray_model_predict e _)) as [err | s]; [by left | ].
  destruct (Py.ltb s App.XRAY_THRESHOLD); [by left | ].
  destruct (App.score00 (pneumonia_model_predict e _)) as [err | p];
    [by left | ].
  right. exists p. eexists.
  unfold stage2_result. destruct (Py.gtb p (1 # 2)); reflexivity.
Qed.

Lemma chat_keeps_slot e request_json w :
  latest_analysis (App.chat e request_json w).2 = latest_analysis w.
Proof.
  destruct w as [la d t c]. unfold App.chat.
  destruct (groq_client e) as [client | ]; [ | reflexivity].
  destruct (dict_get request_json "message" (VStr "")) as [ | message | q];
    try reflexivity.
  destruct (negb (Py.truthy (Py.strip message))); [reflexivity | ].
  run_handler.
  destruct (client _ _) as [err | [ | reply replies]]; reflexivity.
Qed.

Lemma generate_report_keeps_slot e path v1 v2 v3 v4 v5 v6 v7 image_path w :
  latest_analysis
    (PdfReport.generate_report e path v1 v2 v3 v4 v5 v6 v7 image_path w).2
  = latest_analysis w.
Proof.
  destruct w as [la d t c]. unfold PdfReport.generate_report.
  run_handler. destruct (PdfReport.build_chart e v6 v7); [reflexivity | ].
  destruct (forallb _ _); reflexivity.
Qed.

Lemma download_report_keeps_slot e data w :
  latest_analysis (App.download_report e data w).2 = latest_analysis w.
Proof.
  unfold App.download_report.
  destruct (if value_truthy _ then _ else _) as [err | image_path];
    [reflexivity | ].
  cbv [mbind M_bind mret M_ret get_world uuid4 tick].
  match goal with
  | |- context [PdfReport.generate_report ?e ?a ?b ?c ?d ?f ?g ?h ?i ?j ?k] =>
      pose proof (generate_report_keeps_slot e a b c d f g h i j k) as Hg;
      destruct (PdfReport.generate_report e a b c d f g h i j k) as [r w1]
  end.
  cbn [snd latest_analysis] in Hg.
  destruct r as [err | []]; [exact Hg | ].
  destruct (disk w1 !! _); exact Hg.
Qed.

Lemma handle_slot_ok e rq w :
  slot_ok (latest_analysis w) -> slot_ok (latest_analysis (handle e rq w).2).
Proof.
  intros Hok. destruct rq as [ | r | j | d]; cbn [handle].
  - exact Hok.
  - destruct (predict_slot_cases e r w) as [-> | (p & ts & ->)]; [exact Hok | ].
    right. exists (stage2_result p).1,
      (Py.str_or (Py.strip (form_get r "patient_name")) "the patient").
    split; [by simplify_map_eq | ]. split.
    { unfold stage2_result. destruct (Py.gtb p (1 # 2)); auto. }
    split; [by simplify_map_eq | ].
    unfold Py.str_or. destruct (Py.strip (form_get r "patient_name")); done.
  - by rewrite chat_keeps_slot.
  - by rewrite download_report_keeps_slot.
Qed.

Lemma serve_slot_ok e rqs w :
  slot_ok (latest_analysis w) -> slot_ok (latest_analysis (serve e rqs w)).
Proof.
  revert w. induction rqs as [ | rq rest IH]; intros w Hok; cbn [serve].
  - exact Hok.
  - apply IH, handle_slot_ok, Hok.
Qed.

(** C9: the slot starts empty; whatever requests are served, it is empty or
    holds a NORMAL or PNEUMONIA verdict with a non-empty patient name; and a
    successful /predict with an empty patient name stores 'the patient'
    while its response carries the empty string. *)
Theorem latest_analysis_invariant e d rqs :
  latest_analysis (startup d) = ∅
  /\ slot_ok (latest_analysis (serve e rqs (startup d)))
  /\ (forall request w file img s p,
        accepted e request file img ->
        App.score00 (xray_model_predict e (processed_of img)) = inr s ->
        (1 # 2 <= s)%Q ->
        App.score00 (pneumonia_model_predict e (processed_of img)) = inr p ->
        Py.strip (form_get request "patient_name") = "" ->
        latest_analysis (App.predict e request w).2 !! "patient_name"
        = Some (VStr "the patient")
        /\ exists o, (App.predict e request w).1 = jsonify o 200
                     /\ o !! "patient_name" = Some (VStr "")).
Proof.
  split; [reflexivity | ]. split.
  - apply serve_slot_ok. by left.
  - intros request w file img s p Hacc Hs Hge Hp Hname. split.
    + rewrite (predict_success_slot _ _ _ _ _ _ _ Hacc Hs Hge Hp), Hname.
      by simplify_map_eq.
    + destruct (predict_success_response e request w _ _ _ _ Hacc Hs Hge Hp)
        as (o & Hr & _ & _ & _ & _ & Hn).
      exists o. split; [exact Hr | ]. by rewrite Hn, Hname.
Qed.

Lemma latest_analysis_invariant_witness :
  slot_ok (latest_analysis
             (serve (demo_env (92 # 100) (12 # 100) None)
                [PostPredict (demo_request "  " (demo_file "scan.png" [Byte.x01]));
                 PostChat {[ "message" := VStr "hello" ]}]
                (startup ∅)))
  /\ latest_analysis
       (App.predict (demo_env (92 # 100) (12 # 100) None)
          (demo_request "  " (demo_file "scan.png" [Byte.x01]))
          (startup ∅)).2 !! "patient_name"
     = Some (VStr "the patient").
Proof.
  destruct (latest_analysis_invariant (demo_env (92 # 100) (12 # 100) None) ∅
              [PostPredict (demo_request "  " (demo_file "scan.png" [Byte.x01]));
               PostChat {[ "message" := VStr "hello" ]}])
    as (_ & Hok & Hname).
  split; [exact Hok | ].
  apply (Hname (demo_request "  " (demo_file "scan.png" [Byte.x01]))
           (startup ∅) (demo_file "scan.png" [Byte.x01]) [255%Z; 0%Z]
           (92 # 100) (12 # 100)).
  - repeat split; vm_compute; reflexivity.
  - reflexivity.
  - vm_compute. discriminate.
  - reflexivity.
  - reflexivity.
Defined.

(** ** Upload validation and preprocessing failures *)

(** C7: when the upload has an allowed extension and preprocessing of the
    saved file raises, /predict answers 200 with prediction 'Invalid Image'
    and the could-not-process message (not a 500); no model is called and
    the latest-analysis slot is untouched. *)
Theorem predict_undecodable_upload e request w file err :
  files request !! "xray" = Some file ->
  App.allowed_file (filename file) = true ->
  (App.preprocess_image e (saved_path e w file) (world_saved e w file)).1
  = inl err ->
  (App.predict e request w).1
  = jsonify
      (<[ "prediction" := VStr "Invalid Image" ]>
       {[ "message" :=
            VStr "Could not process the uploaded file. Please upload a valid image." ]})
      200
  /\ resp_status (App.predict e request w).1 <> 500%Z
  /\ calls (App.predict e request w).2 = calls w
  /\ latest_analysis (App.predict e request w).2 = latest_analysis w.
Proof.
  intros Hf Ha Hraise. destruct w as [la d t c].
  unfold App.predict. rewrite Hf, (allowed_file_truthy _ Ha), Ha.
  revert Hraise. unfold world_saved, saved_path, saved_name.
  run_handler. cbn [fst]. rewrite !lookup_insert_eq.
  destruct (image_open_rgb_224 e (stream file)); [ | discriminate].
  intros _. repeat split; done.
Qed.

Lemma predict_undecodable_upload_witness :
  resp_status
    (App.predict (demo_env (92 # 100) (12 # 100) None)
       (demo_request "Ada" (demo_file "scan.jpeg" []))
       (startup ∅)).1 <> 500%Z.
Proof.
  apply (predict_undecodable_upload (demo_env (92 # 100) (12 # 100) None)
           (demo_request "Ada" (demo_file "scan.jpeg" []))
           (startup ∅) (demo_file "scan.jpeg" [])
           "cannot identify image file").
  - reflexivity.
  - reflexivity.
  - reflexivity.
Defined.

Lemma append_nil_l (s : string) : "" +:+ s = s.
Proof. reflexivity. Qed.

Lemma append_cons (c : ascii) (a s : string) :
  String c a +:+ s = String c (a +:+ s).
Proof. reflexivity. Qed.

Lemma contains_dot_has_dot (s : string) :
  Py.contains_dot s = true <-> has_dot s.
Proof.
  unfold has_dot. induction s as [ | c s IH]; cbn.
  - split; [discriminate | tauto].
  - rewrite orb_true_iff, IH, Ascii.eqb_eq. intuition congruence.
Qed.

Lemma rsplit_dot_pair_none (s : string) :
  Py.rsplit_dot_pair s = None -> Py.contains_dot s = false.
Proof.
  induction s as [ | c s IH]; cbn; [reflexivity | ].
  destruct (Py.rsplit_dot_pair s) as [[a b] | ]; [discriminate | ].
  destruct (Ascii.eqb c "."); [discriminate | ].
  intros _. by apply IH.
Qed.

Lemma rsplit_dot_pair_some (s a b : string) :
  Py.rsplit_dot_pair s = Some (a, b) ->
  s = a +:+ "." +:+ b /\ Py.contains_dot b = false.
Proof.
  revert a. induction s as [ | c s IH]; intros a; cbn; [discriminate | ].
  destruct (Py.rsplit_dot_pair s) as [[a' b'] | ] eqn:Hs.
  - intros [= <- <-]. destruct (IH a' eq_refl) as [-> Hb]. by split.
  - destruct (Ascii.eqb c ".") eqn:Hc; [ | discriminate].
    intros [= <- <-]. apply Ascii.eqb_eq in Hc. subst c.
    split; [reflexivity | by apply rsplit_dot_pair_none].
Qed.

Lemma rsplit_dot_pair_last (a b : string) :
  Py.contains_dot b = false ->
  Py.rsplit_dot_pair (a +:+ "." +:+ b) = Some (a, b).
Proof.
  intros Hb. induction a as [ | c a IH].
  - rewrite append_nil_l, append_cons, append_nil_l. cbn.
    destruct (Py.rsplit_dot_pair b) as [[x y] | ] eqn:Hx; [ | reflexivity].
    apply rsplit_dot_pair_some in Hx as [-> _].
    exfalso. revert Hb. clear. induction x as [ | c x IH].
    + rewrite append_nil_l, append_cons. discriminate.
    + rewrite append_cons. cbn. rewrite orb_false_iff. intros [_ H]. by apply IH.
  - rewrite append_cons. cbn. by rewrite IH.
Qed.

(** [allowed_file] decides [extension_allowed]. *)
Lemma allowed_file_spec (fn : string) :
  App.allowed_file fn = true <-> extension_allowed fn.
Proof.
  unfold App.allowed_file, Py.rsplit_dot, extension_allowed. split.
  - rewrite andb_true_iff. intros [_ H].
    destruct (Py.rsplit_dot_pair fn) as [[a b] | ] eqn:Hs; [ | discriminate].
    apply rsplit_dot_pair_some in Hs as [-> Hb].
    exists a, b. split; [reflexivity | ]. split.
    + rewrite <- contains_dot_has_dot. by rewrite Hb.
    + by apply bool_decide_eq_true in H.
  - intros (stem & ext & -> & Hdot & Hin).
    assert (Hb : Py.contains_dot ext = false).
    { destruct (Py.contains_dot ext) eqn:H; [ | reflexivity].
      exfalso. by apply Hdot, contains_dot_has_dot. }
    rewrite (rsplit_dot_pair_last _ _ Hb), andb_true_iff. split.
    + clear. induction stem as [ | c s IH].
      * reflexivity.
      * rewrite append_cons. cbn. rewrite IH. by rewrite orb_true_r.
    + by apply bool_decide_eq_true.
Qed.

(** C6: /predict answers 400 with the fixed error message, and changes
    nothing, when the file part is absent, when its name has no dot, or when
    the part of the name after the last dot, lowercased, is not one of png,
    jpg, jpeg, bmp, webp; the content of the file plays no role. *)
Theorem predict_rejects_upload e request w :
  match files request !! "xray" with
  | None => True
  | Some file =>
      ~ has_dot (filename file) \/ ~ extension_allowed (filename file)
  end ->
  App.predict e request w
  = (jsonify
       {[ "error" :=
            VStr "Please upload a valid image (png, jpg, jpeg, bmp, webp)." ]}
       400,
     w).
Proof.
  unfold App.predict.
  destruct (files request !! "xray") as [file | ]; [ | reflexivity].
  intros H.
  assert (Ha : App.allowed_file (filename file) = false).
  { destruct (App.allowed_file (filename file)) eqn:Ha; [ | reflexivity].
    apply allowed_file_spec in Ha. destruct H as [H | H]; [ | by destruct H].
    destruct Ha as (stem & ext & Hfn & _). exfalso. apply H.
    rewrite Hfn. unfold has_dot. clear.
    induction stem as [ | c s IH]; [by left | ].
    rewrite append_cons. by right. }
  rewrite Ha, orb_true_r. reflexivity.
Qed.

Lemma predict_rejects_upload_witness :
  App.predict (demo_env (92 # 100) (12 # 100) None)
    (demo_request "Ada" (demo_file "notes.txt" [Byte.x01])) (startup ∅)
  = (jsonify
       {[ "error" :=
            VStr "Please upload a valid image (png, jpg, jpeg, bmp, webp)." ]}
       400,
     startup ∅).
Proof.
  apply (predict_rejects_upload (demo_env (92 # 100) (12 # 100) None)
           (demo_request "Ada" (demo_file "notes.txt" [Byte.x01]))
           (startup ∅)).
  right. rewrite <- allowed_file_spec. vm_compute. discriminate.
Defined.

(** ** /chat *)

Lemma lstrip_blank (s : string) : blank s -> Py.lstrip s = "".
Proof.
  unfold blank. induction s as [ | c s IH]; cbn; intros H; [reflexivity | ].
  rewrite (H c) by auto. apply IH. intros c' Hc'. apply H. auto.
Qed.

Lemma strip_blank (s : string) : blank s -> Py.strip s = "".
Proof. intros H. unfold Py.strip. by rewrite (lstrip_blank s H). Qed.

(** C3 (as amended): without a chat backend every request, empty message
    or not, gets the fixed 'temporarily unavailable' reply with status 200;
    with a backend, a message that is missing, empty or only whitespace gets
    status 400. *)
Theorem chat_unconfigured_or_blank e request_json w :
  (groq_client e = None ->
   App.chat e request_json w
   = (jsonify
        {[ "reply" :=
             VStr "AI assistant is temporarily unavailable. Please try again later." ]}
        200,
      w))
  /\ (forall client message,
        groq_client e = Some client ->
        dict_get request_json "message" (VStr "") = VStr message ->
        blank message ->
        App.chat e request_json w
        = (jsonify {[ "reply" := VStr "Please say something." ]} 400, w)).
Proof.
  unfold App.chat. split.
  - intros ->. reflexivity.
  - intros client message -> -> Hblank. by rewrite (strip_blank _ Hblank).
Qed.

Lemma chat_unconfigured_or_blank_witness :
  App.chat (demo_env (92 # 100) (12 # 100) (Some demo_groq))
    {[ "message" := VStr "  " ]} (startup ∅)
  = (jsonify {[ "reply" := VStr "Please say something." ]} 400, startup ∅).
Proof.
  apply (proj2 (chat_unconfigured_or_blank
                  (demo_env (92 # 100) (12 # 100) (Some demo_groq))
                  {[ "message" := VStr "  " ]} (startup ∅))
           demo_groq "  ").
  - reflexivity.
  - reflexivity.
  - intros c Hc. cbn in Hc. destruct Hc as [<- | [<- | []]]; reflexivity.
Defined.

(** C3 (as stated) fails: with no chat backend an empty message is answered
    with status 200, not 400. *)
Lemma chat_empty_message_unconfigured :
  groq_client (demo_env (92 # 100) (12 # 100) None) = None
  /\ resp_status
       (App.chat (demo_env (92 # 100) (12 # 100) None)
          {[ "message" := VStr "" ]} (startup ∅)).1 = 200%Z
  /\ resp_status
       (App.chat (demo_env (92 # 100) (12 # 100) None)
          {[ "message" := VStr "" ]} (startup ∅)).1 <> 400%Z.
Proof. repeat split. discriminate. Qed.

(** ** The single-model handler of utils/app.py against stage 2 of app.py *)

Lemma utils_predict_single_output e request w file img a p :
  accepted e request file img ->
  model_predict e (processed_of img) = inr a ->
  shape_last a = 1 ->
  item00 a = inr p ->
  exists u,
    (UtilsApp.predict e request w).1 = jsonify u 200
    /\ u !! "prediction"
       = Some (VStr (if Py.geb p (1 # 2) then "PNEUMONIA" else "NORMAL"))
    /\ u !! "confidence"
       = Some (VNum (Py.round (Py.max p (1 - p) * 100) 2))
    /\ u !! "pneumonia_prob" = Some (VNum (Py.round (p * 100) 2))
    /\ u !! "normal_prob" = Some (VNum (Py.round ((1 - p) * 100) 2)).
Proof.
  intros (Hf & Ha & Hi) Hm Hshape Hp. destruct w as [la d t c].
  unfold UtilsApp.predict. rewrite Hf, (allowed_file_truthy _ Ha).
  change (UtilsApp.allowed_file (filename file))
    with (App.allowed_file (filename file)).
  rewrite Ha. run_handler. rewrite lookup_insert_eq, Hi.
  fold (processed_of img). rewrite Hm.
  unfold UtilsApp.probabilities. rewrite Hshape, Hp. cbn [Nat.eqb fst].
  eexists. split; [reflexivity | ].
  repeat split; by simplify_map_eq.
Qed.

(** C10 (as amended): on the same request and the same single-output
    classifier score p in [0,1], the two handlers return the same
    confidence and the same percentages; they return the same label when
    p is not 0.5, and at p = 0.5 app.py answers NORMAL while utils/app.py
    answers PNEUMONIA. *)
Theorem predict_handlers_agree e request w file img s a p :
  accepted e request file img ->
  App.score00 (xray_model_predict e (processed_of img)) = inr s ->
  (1 # 2 <= s)%Q ->
  pneumonia_model_predict e (processed_of img) = inr a ->
  model_predict e (processed_of img) = inr a ->
  shape_last a = 1 ->
  item00 a = inr p ->
  (0 <= p <= 1)%Q ->
  exists o u,
    (App.predict e request w).1 = jsonify o 200
    /\ (UtilsApp.predict e request w).1 = jsonify u 200
    /\ o !! "confidence" = u !! "confidence"
    /\ o !! "pneumonia_prob" = u !! "pneumonia_prob"
    /\ o !! "normal_prob" = u !! "normal_prob"
    /\ (~ (p == 1 # 2)%Q -> o !! "prediction" = u !! "prediction")
    /\ ((p == 1 # 2)%Q ->
        o !! "prediction" = Some (VStr "NORMAL")
        /\ u !! "prediction" = Some (VStr "PNEUMONIA")).
Proof.
  intros Hacc Hs Hge Hpm Hm Hshape Hp _.
  assert (Hp' : App.score00 (pneumonia_model_predict e (processed_of img))
                = inr p) by (rewrite Hpm; exact Hp).
  destruct (predict_success_response e request w _ _ _ _ Hacc Hs Hge Hp')
    as (o & Hr & Hl & Hc & Ha & Hb & _).
  destruct (utils_predict_single_output e request w _ _ _ _ Hacc Hm Hshape Hp)
    as (u & Hur & Hul & Huc & Hua & Hub).
  exists o, u. split; [exact Hr | ]. split; [exact Hur | ].
  rewrite Hl, Hc, Ha, Hb, Hul, Huc, Hua, Hub, stage2_confidence_max.
  split; [reflexivity | ]. split; [reflexivity | ]. split; [reflexivity | ].
  unfold stage2_result.
  destruct (Py.gtb p (1 # 2)) eqn:Hgt; destruct (Py.geb p (1 # 2)) eqn:Hgeb;
    cbn [fst].
  - split; [reflexivity | ]. apply gtb_lt in Hgt. intros Heq. lra.
  - apply gtb_lt in Hgt. apply geb_lt in Hgeb. lra.
  - apply gtb_le in Hgt. apply geb_le in Hgeb.
    split; [ | by split]. intros Hne. exfalso. apply Hne. lra.
  - split; [reflexivity | ]. apply geb_lt in Hgeb. intros Heq. lra.
Qed.

Lemma predict_handlers_agree_witness :
  exists o u,
    (App.predict (demo_env (92 # 100) (12 # 100) None)
       (demo_request "Ada" (demo_file "scan.png" [Byte.x01]))
       (startup ∅)).1 = jsonify o 200
    /\ (UtilsApp.predict (demo_env (92 # 100) (12 # 100) None)
          (demo_request "Ada" (demo_file "scan.png" [Byte.x01]))
          (startup ∅)).1 = jsonify u 200
    /\ o !! "confidence" = u !! "confidence"
    /\ o !! "prediction" = u !! "prediction".
Proof.
  destruct (predict_handlers_agree (demo_env (92 # 100) (12 # 100) None)
              (demo_request "Ada" (demo_file "scan.png" [Byte.x01]))
              (startup ∅) (demo_file "scan.png" [Byte.x01]) [255%Z; 0%Z]
              (92 # 100) (arr1 (12 # 100)) (12 # 100))
    as (o & u & Ho & Hu & Hc & _ & _ & Hl & _).
  - repeat split; vm_compute; reflexivity.
  - reflexivity.
  - vm_compute. discriminate.
  - reflexivity.
  - reflexivity.
  - reflexivity.
  - reflexivity.
  - split; vm_compute; discriminate.
  - exists o, u. repeat split; try assumption.
    apply Hl. vm_compute. discriminate.
Defined.

(** C10 (as stated) fails at p = 0.5: the two handlers return different
    labels for the same upload and the same classifier score. *)
Lemma predict_handlers_differ_at_half :
  let e := demo_env (92 # 100) (1 # 2) None in
  let request := demo_request "Ada" (demo_file "scan.png" [Byte.x01]) in
  exists o u,
    (App.predict e request (startup ∅)).1 = jsonify o 200
    /\ (UtilsApp.predict e request (startup ∅)).1 = jsonify u 200
    /\ o !! "prediction" = Some (VStr "NORMAL")
    /\ u !! "prediction" = Some (VStr "PNEUMONIA")
    /\ o !! "prediction" <> u !! "prediction".
Proof.
  cbv zeta. eexists. eexists.
  split; [reflexivity | ]. split; [reflexivity | ].
  split; [reflexivity | ]. split; [reflexivity | ].
  vm_compute. discriminate.
Qed.

(** ** /download-report *)


Lemma dict_get_num (data : gmap string value) (key : string) :
  num_field data key ->
  dict_get data key (VNum 0) = VNum (num_of_field data key).
Proof.
  unfold num_field, dict_get, num_of_field.
  by destruct (data !! key) as [[ | s | q] | ].
Qed.







(** ** Further properties of /predict *)

(** The extension under which an accepted upload is stored. *)
Lemma accepted_extension (fn : string) :
  App.allowed_file fn = true ->
  Py.lower (nth 1 (Py.rsplit_dot fn) "") ∈ App.ALLOWED_EXTENSIONS.
Proof.
  unfold App.allowed_file, Py.rsplit_dot. rewrite andb_true_iff. intros [_ H].
  destruct (Py.rsplit_dot_pair fn) as [[a b] | ]; [ | discriminate].
  cbn [nth]. by apply bool_decide_eq_true in H.
Qed.

(** X1: Only the text after the last dot decides whether a name is accepted:
    the stem may be anything, even empty, and letter case is ignored. *)
Theorem allowed_file_last_extension (stem ext : string) :
  ~ has_dot ext ->
  App.allowed_file (stem +:+ "." +:+ ext)
  = bool_decide (Py.lower ext ∈ App.ALLOWED_EXTENSIONS).
Proof.
  intros Hdot.
  assert (Hb : Py.contains_dot ext = false).
  { destruct (Py.contains_dot ext) eqn:H; [ | reflexivity].
    exfalso. by apply Hdot, contains_dot_has_dot. }
  unfold App.allowed_file, Py.rsplit_dot.
  rewrite (rsplit_dot_pair_last _ _ Hb).
  assert (Hc : Py.contains_dot (stem +:+ "." +:+ ext) = true).
  { clear. induction stem as [ | c s IH]; [reflexivity | ].
    rewrite append_cons. cbn. rewrite IH. apply orb_true_r. }
  by rewrite Hc.
Qed.

Lemma allowed_file_last_extension_witness :
  App.allowed_file ("" +:+ "." +:+ "PNG") = true
  /\ App.allowed_file ("scan.png" +:+ "." +:+ "exe") = false.
Proof.
  split.
  - rewrite (allowed_file_last_extension "" "PNG"); [reflexivity | ].
    intros H. cbn in H. intuition discriminate.
  - rewrite (allowed_file_last_extension "scan.png" "exe"); [reflexivity | ].
    intros H. cbn in H. intuition discriminate.
Defined.

(** X2: An accepted upload is written to the upload folder under a fresh
    identifier and its lowercased, allowed extension, whatever the request
    leads to afterwards (decoding failure, gate rejection, model error or
    success); no other path of the disk changes. *)
Theorem predict_saves_upload e request w file :
  files request !! "xray" = Some file ->
  App.allowed_file (filename file) = true ->
  exists ext,
    ext ∈ App.ALLOWED_EXTENSIONS
    /\ disk (App.predict e request w).2
       = <[ Py.path_join (UPLOAD_FOLDER e)
              (uuid4_hex e (ticks w) +:+ "." +:+ ext)
            := Uploaded (stream file) ]> (disk w).
Proof.
  intros Hf Ha.
  exists (Py.lower (nth 1 (Py.rsplit_dot (filename file)) "")).
  split; [by apply accepted_extension | ].
  destruct w as [la d t c]. unfold App.predict.
  rewrite Hf, (allowed_file_truthy _ Ha), Ha.
  run_handler. rewrite lookup_insert_eq.
  destruct (image_open_rgb_224 e (stream file)) as [err | img]; [reflexivity | ].
  destruct (App.score00 (xray_model_predict e _)) as [err | s];
    [reflexivity | ].
  destruct (Py.ltb s App.XRAY_THRESHOLD); [reflexivity | ].
  destruct (App.score00 (pneumonia_model_predict e _)) as [err | p];
    [reflexivity | ].
  destruct (Py.gtb p (1 # 2)); reflexivity.
Qed.

Lemma predict_saves_upload_witness :
  exists ext,
    ext ∈ App.ALLOWED_EXTENSIONS
    /\ disk (App.predict (demo_env (42 # 100) (12 # 100) None)
               (demo_request "Ada" (demo_file "Scan.JPG" [Byte.x01]))
               (startup ∅)).2
       = <[ Py.path_join "static/uploads"
              ("0123456789abcdef0123456789abcdef" +:+ "." +:+ ext)
            := Uploaded [Byte.x01] ]> ∅.
Proof.
  apply (predict_saves_upload (demo_env (42 # 100) (12 # 100) None)
           (demo_request "Ada" (demo_file "Scan.JPG" [Byte.x01]))
           (startup ∅) (demo_file "Scan.JPG" [Byte.x01])).
  - reflexivity.
  - reflexivity.
Defined.

(** X3: When the gate model raises, or returns an array without an element
    [0][0], /predict answers 500 with 'X-ray detection failed: ' followed by
    the error text; the classifier is not called and the slot is kept. *)
Theorem predict_gate_failure e request w file img err :
  accepted e request file img ->
  App.score00 (xray_model_predict e (processed_of img)) = inl err ->
  (App.predict e request w).1
  = jsonify {[ "error" := VStr ("X-ray detection failed: " +:+ err) ]} 500
  /\ calls (App.predict e request w).2
     = CallXray (processed_of img) :: calls w
  /\ latest_analysis (App.predict e request w).2 = latest_analysis w.
Proof.
  intros (Hf & Ha & Hi) Hs. destruct w as [la d t c].
  unfold App.predict. rewrite Hf, (allowed_file_truthy _ Ha), Ha.
  run_handler. rewrite lookup_insert_eq, Hi.
  fold (processed_of img). rewrite Hs. by repeat split.
Qed.

(** X4: When the gate passes and the classifier raises, or returns an array
    without an element [0][0], /predict answers 500 with 'Pneumonia
    prediction failed: ' followed by the error text, and the slot keeps its
    previous value. *)
Theorem predict_classifier_failure e request w file img s err :
  accepted e request file img ->
  App.score00 (xray_model_predict e (processed_of img)) = inr s ->
  (1 # 2 <= s)%Q ->
  App.score00 (pneumonia_model_predict e (processed_of img)) = inl err ->
  (App.predict e request w).1
  = jsonify {[ "error" := VStr ("Pneumonia prediction failed: " +:+ err) ]} 500
  /\ latest_analysis (App.predict e request w).2 = latest_analysis w
  /\ ticks (App.predict e request w).2 = S (ticks w).
Proof.
  intros (Hf & Ha & Hi) Hs Hge Hp. destruct w as [la d t c].
  apply ltb_ge in Hge. change (Py.ltb s App.XRAY_THRESHOLD = false) in Hge.
  unfold App.predict. rewrite Hf, (allowed_file_truthy _ Ha), Ha.
  run_handler. rewrite lookup_insert_eq, Hi.
  fold (processed_of img). rewrite Hs, Hge, Hp. by repeat split.
Qed.

Lemma predict_gate_failure_witness :
  resp_status
    (App.predict (failing_env None (Some (12 # 100)))
       (demo_request "Ada" (demo_file "scan.png" [Byte.x01]))
       (startup ∅)).1 = 500%Z.
Proof.
  destruct (predict_gate_failure (failing_env None (Some (12 # 100)))
              (demo_request "Ada" (demo_file "scan.png" [Byte.x01]))
              (startup ∅) (demo_file "scan.png" [Byte.x01]) [255%Z; 0%Z]
              "OOM when allocating tensor") as (Hr & _).
  - repeat split; vm_compute; reflexivity.
  - reflexivity.
  - rewrite Hr. reflexivity.
Defined.

Lemma predict_classifier_failure_witness :
  latest_analysis
    (App.predict (failing_env (Some (92 # 100)) None)
       (demo_request "Ada" (demo_file "scan.png" [Byte.x01]))
       (startup ∅)).2 = ∅.
Proof.
  destruct (predict_classifier_failure (failing_env (Some (92 # 100)) None)
              (demo_request "Ada" (demo_file "scan.png" [Byte.x01]))
              (startup ∅) (demo_file "scan.png" [Byte.x01]) [255%Z; 0%Z]
              (92 # 100) "OOM when allocating tensor") as (_ & Hla & _).
  - repeat split; vm_compute; reflexivity.
  - reflexivity.
  - vm_compute. discriminate.
  - reflexivity.
  - exact Hla.
Defined.

(** X5: [preprocess_image] on a stored upload that decodes to bytes 0..255
    returns a batch of one image of the same size, every entry in [0,1], and
    leaves the state alone. *)
Theorem preprocess_image_normalised e path w content img :
  disk w !! path = Some (Uploaded content) ->
  image_open_rgb_224 e content = inr img ->
  Forall (fun b => (0 <= b <= 255)%Z) img ->
  exists row,
    App.preprocess_image e path w = (inr [row], w)
    /\ length row = length img
    /\ Forall (fun x => (0 <= x <= 1)%Q) row.
Proof.
  intros Hd Hi Hbytes.
  exists (map (fun b => (inject_Z b / 255)%Q) img).
  split; [ | split].
  - unfold App.preprocess_image. run_handler. destruct w as [la d t c].
    cbn [disk] in Hd. by rewrite Hd, Hi.
  - apply length_map.
  - apply Forall_map. eapply Forall_impl; [exact Hbytes | ].
    intros b [Hlo Hhi]. cbn beta.
    unfold Qdiv, Qmult, Qinv, Qle, inject_Z. cbn [Qnum Qden]. lia.
Qed.

Lemma preprocess_image_normalised_witness :
  exists row,
    App.preprocess_image (demo_env (92 # 100) (12 # 100) None)
      "static/uploads/scan.png"
      (startup {[ "static/uploads/scan.png" := Uploaded [Byte.x01] ]})
    = (inr [row],
       startup {[ "static/uploads/scan.png" := Uploaded [Byte.x01] ]})
    /\ length row = 2
    /\ Forall (fun x => (0 <= x <= 1)%Q) row.
Proof.
  apply (preprocess_image_normalised (demo_env (92 # 100) (12 # 100) None)
           "static/uploads/scan.png"
           (startup {[ "static/uploads/scan.png" := Uploaded [Byte.x01] ]})
           [Byte.x01] [255%Z; 0%Z]).
  - reflexivity.
  - reflexivity.
  - repeat constructor; lia.
Defined.

(** X7: The calls /predict makes: none, the gate alone, or the gate followed by
    the classifier on the same tensor; the classifier is called only after
    the gate returned a score of at least 0.5. *)
Theorem predict_call_order e request w :
  calls (App.predict e request w).2 = calls w
  \/ (exists t, calls (App.predict e request w).2 = CallXray t :: calls w)
  \/ (exists t s,
        calls (App.predict e request w).2
        = CallPneumonia t :: CallXray t :: calls w
        /\ App.score00 (xray_model_predict e t) = inr s
        /\ (1 # 2 <= s)%Q).
Proof.
  destruct w as [la d t c]. unfold App.predict.
  destruct (files request !! "xray") as [file | ]; [ | by left].
  destruct (negb (Py.truthy (filename file))
            || negb (App.allowed_file (filename file))); [by left | ].
  run_handler. rewrite lookup_insert_eq.
  destruct (image_open_rgb_224 e (stream file)) as [err | img]; [by left | ].
  destruct (App.score00 (xray_model_predict e _)) as [err | s] eqn:Hs;
    [right; left; by eexists | ].
  destruct (Py.ltb s App.XRAY_THRESHOLD) eqn:Hlt;
    [right; left; by eexists | ].
  right. right. eexists _, s. split.
  - destruct (App.score00 (pneumonia_model_predict e _)) as [err | p];
      [reflexivity | ].
    destruct (Py.gtb p (1 # 2)); reflexivity.
  - split; [exact Hs | by apply ltb_ge in Hlt].
Qed.

(** X8: The image_filename of a successful response is the identifier drawn
    for the upload with its lowercased extension, and the upload folder
    holds the uploaded bytes under that name. *)
Theorem predict_response_names_upload e request w file img s p :
  accepted e request file img ->
  App.score00 (xray_model_predict e (processed_of img)) = inr s ->
  (1 # 2 <= s)%Q ->
  App.score00 (pneumonia_model_predict e (processed_of img)) = inr p ->
  exists o name,
    (App.predict e request w).1 = jsonify o 200
    /\ o !! "image_filename" = Some (VStr name)
    /\ name = uuid4_hex e (ticks w) +:+ "."
              +:+ Py.lower (nth 1 (Py.rsplit_dot (filename file)) "")
    /\ disk (App.predict e request w).2
       !! Py.path_join (UPLOAD_FOLDER e) name
       = Some (Uploaded (stream file)).
Proof.
  intros Hacc Hs Hge Hp. apply ltb_ge in Hge.
  change (Py.ltb s App.XRAY_THRESHOLD = false) in Hge.
  rewrite (predict_gate_open _ _ _ _ _ _ _ Hacc Hs Hge Hp).
  eexists _, _. split; [reflexivity | ].
  split; [by simplify_map_eq | ]. split; [reflexivity | ].
  cbn [snd disk]. apply lookup_insert_eq.
Qed.

Lemma predict_response_names_upload_witness :
  exists o name,
    (App.predict (demo_env (92 # 100) (12 # 100) None)
       (demo_request "Ada" (demo_file "scan.PNG" [Byte.x01]))
       (startup ∅)).1 = jsonify o 200
    /\ o !! "image_filename" = Some (VStr name)
    /\ name = "0123456789abcdef0123456789abcdef" +:+ "."
              +:+ Py.lower (nth 1 (Py.rsplit_dot "scan.PNG") "")
    /\ disk (App.predict (demo_env (92 # 100) (12 # 100) None)
               (demo_request "Ada" (demo_file "scan.PNG" [Byte.x01]))
               (startup ∅)).2
       !! Py.path_join "static/uploads" name
       = Some (Uploaded [Byte.x01]).
Proof.
  apply (predict_response_names_upload (demo_env (92 # 100) (12 # 100) None)
           (demo_request "Ada" (demo_file "scan.PNG" [Byte.x01]))
           (startup ∅) (demo_file "scan.PNG" [Byte.x01]) [255%Z; 0%Z]
           (92 # 100) (12 # 100)).
  - repeat split; vm_compute; reflexivity.
  - reflexivity.
  - vm_compute. discriminate.
  - reflexivity.
Defined.

Lemma round_half_even_inject_Z (k : Z) : Py.round_half_even (inject_Z k) = k.
Proof.
  unfold Py.round_half_even. rewrite Qfloor_Z.
  assert (H : (inject_Z k - inject_Z k ?= 1 # 2)%Q = Lt)
    by (rewrite <- Qlt_alt; lra).
  by rewrite H.
Qed.

Lemma round_half_even_bounds (x : Q) :
  (Qfloor x <= Py.round_half_even x <= Qfloor x + 1)%Z.
Proof.
  unfold Py.round_half_even.
  destruct (x - inject_Z (Qfloor x) ?= 1 # 2)%Q; [ | lia | lia].
  destruct (Z.even (Qfloor x)); lia.
Qed.

Lemma round_half_even_mono (x y : Q) :
  (x <= y)%Q -> (Py.round_half_even x <= Py.round_half_even y)%Z.
Proof.
  intros Hxy. pose proof (Qfloor_resp_le _ _ Hxy) as Hf.
  destruct (Z.eq_dec (Qfloor x) (Qfloor y)) as [Heq | Hne].
  - unfold Py.round_half_even. rewrite Heq.
    destruct (x - inject_Z (Qfloor y) ?= 1 # 2)%Q eqn:Hx;
      destruct (y - inject_Z (Qfloor y) ?= 1 # 2)%Q eqn:Hy;
      try (destruct (Z.even (Qfloor y)); lia); try lia.
    + apply Qeq_alt in Hx. apply Qlt_alt in Hy. lra.
    + apply Qgt_alt in Hx. apply Qeq_alt in Hy. lra.
    + apply Qgt_alt in Hx. apply Qlt_alt in Hy. lra.
  - pose proof (round_half_even_bounds x). pose proof (round_half_even_bounds y).
    lia.
Qed.

(** The two-decimal rounding of a value between two integers stays between
    them. *)
Lemma round2_between (lo hi : Z) (x : Q) :
  (inject_Z lo <= x <= inject_Z hi)%Q ->
  (inject_Z lo <= Py.round x 2 <= inject_Z hi)%Q.
Proof.
  intros [Hlo Hhi]. unfold Py.round.
  change (10 ^ Z.of_nat 2)%Z with 100%Z.
  change (Z.to_pos 100) with 100%positive.
  assert (H1 : (lo * 100 <= Py.round_half_even (x * inject_Z 100))%Z).
  { rewrite <- (round_half_even_inject_Z (lo * 100)).
    apply round_half_even_mono. rewrite inject_Z_mult.
    change (inject_Z 100) with 100%Q. lra. }
  assert (H2 : (Py.round_half_even (x * inject_Z 100) <= hi * 100)%Z).
  { rewrite <- (round_half_even_inject_Z (hi * 100)).
    apply round_half_even_mono. rewrite inject_Z_mult.
    change (inject_Z 100) with 100%Q. lra. }
  set (r := Py.round_half_even (x * inject_Z 100)) in *.
  unfold Qle, inject_Z. cbn [Qnum Qden]. lia.
Qed.

(** X9: For a classifier score p in [0,1] the returned confidence lies between
    50 and 100, both percentages lie between 0 and 100, and the confidence
    is the percentage of the returned label. *)
Theorem predict_confidence_bounds e request w file img s p :
  accepted e request file img ->
  App.score00 (xray_model_predict e (processed_of img)) = inr s ->
  (1 # 2 <= s)%Q ->
  App.score00 (pneumonia_model_predict e (processed_of img)) = inr p ->
  (0 <= p <= 1)%Q ->
  exists o label c a b,
    (App.predict e request w).1 = jsonify o 200
    /\ o !! "prediction" = Some (VStr label)
    /\ o !! "confidence" = Some (VNum c)
    /\ o !! "pneumonia_prob" = Some (VNum a)
    /\ o !! "normal_prob" = Some (VNum b)
    /\ (50 <= c <= 100)%Q
    /\ (0 <= a <= 100)%Q
    /\ (0 <= b <= 100)%Q
    /\ c = (if String.eqb label "PNEUMONIA" then a else b).
Proof.
  intros Hacc Hs Hge Hp [Hp0 Hp1].
  destruct (predict_success_response e request w _ _ _ _ Hacc Hs Hge Hp)
    as (o & Hr & Hl & Hc & Ha & Hb & _).
  exists o, (stage2_result p).1, (stage2_result p).2,
    (Py.round (p * 100) 2), (Py.round ((1 - p) * 100) 2).
  split; [exact Hr | ]. split; [exact Hl | ]. split; [exact Hc | ].
  split; [exact Ha | ]. split; [exact Hb | ].
  assert (Ha100 : (0 <= Py.round (p * 100) 2 <= 100)%Q)
    by (apply (round2_between 0 100); change (inject_Z 0) with 0%Q;
        change (inject_Z 100) with 100%Q; lra).
  assert (Hb100 : (0 <= Py.round ((1 - p) * 100) 2 <= 100)%Q)
    by (apply (round2_between 0 100); change (inject_Z 0) with 0%Q;
        change (inject_Z 100) with 100%Q; lra).
  unfold stage2_result. destruct (Py.gtb p (1 # 2)) eqn:Hgt; cbn [fst snd].
  - apply gtb_lt in Hgt. split; [ | split; [exact Ha100 | split; [exact Hb100 | reflexivity]]].
    apply (round2_between 50 100). change (inject_Z 50) with 50%Q.
    change (inject_Z 100) with 100%Q. lra.
  - apply gtb_le in Hgt. split; [ | split; [exact Ha100 | split; [exact Hb100 | reflexivity]]].
    apply (round2_between 50 100). change (inject_Z 50) with 50%Q.
    change (inject_Z 100) with 100%Q. lra.
Qed.

Lemma predict_confidence_bounds_witness :
  exists o label c a b,
    (App.predict (demo_env (92 # 100) (12 # 100) None)
       (demo_request "Ada" (demo_file "scan.png" [Byte.x01]))
       (startup ∅)).1 = jsonify o 200
    /\ o !! "prediction" = Some (VStr label)
    /\ o !! "confidence" = Some (VNum c)
    /\ o !! "pneumonia_prob" = Some (VNum a)
    /\ o !! "normal_prob" = Some (VNum b)
    /\ (50 <= c <= 100)%Q
    /\ (0 <= a <= 100)%Q
    /\ (0 <= b <= 100)%Q
    /\ c = (if String.eqb label "PNEUMONIA" then a else b).
Proof.
  apply (predict_confidence_bounds (demo_env (92 # 100) (12 # 100) None)
           (demo_request "Ada" (demo_file "scan.png" [Byte.x01]))
           (startup ∅) (demo_file "scan.png" [Byte.x01]) [255%Z; 0%Z]
           (92 # 100) (12 # 100)).
  - repeat split; vm_compute; reflexivity.
  - reflexivity.
  - vm_compute. discriminate.
  - reflexivity.
  - split; vm_compute; discriminate.
Defined.

(** ** The percentages in binary64 *)





(** ** Further properties of /chat *)

Lemma rstrip_empty_blank (s : string) : Py.rstrip s = "" -> blank s.
Proof.
  unfold blank. induction s as [ | c s IH]; cbn; [tauto | ].
  destruct (Py.rstrip s) as [ | c' r]; [ | discriminate].
  destruct (Py.isspace c) eqn:Hc; [ | discriminate].
  intros _ c0 [<- | Hin]; [exact Hc | by apply IH].
Qed.

Lemma lstrip_head (s : string) (c : ascii) (r : string) :
  Py.lstrip s = String c r -> Py.isspace c = false.
Proof.
  induction s as [ | c0 s IH]; cbn; [discriminate | ].
  destruct (Py.isspace c0) eqn:Hc0; [exact IH | ].
  intros [= <- <-]. exact Hc0.
Qed.

Lemma lstrip_empty_blank (s : string) : Py.lstrip s = "" -> blank s.
Proof.
  unfold blank. induction s as [ | c s IH]; cbn; [tauto | ].
  destruct (Py.isspace c) eqn:Hc; [ | discriminate].
  intros H c0 [<- | Hin]; [exact Hc | by apply IH].
Qed.

Lemma strip_empty_blank (s : string) : Py.strip s = "" -> blank s.
Proof.
  unfold Py.strip. intros H.
  destruct (Py.lstrip s) as [ | c r] eqn:Hl; [by apply lstrip_empty_blank | ].
  apply rstrip_empty_blank in H. apply lstrip_head in Hl.
  rewrite (H c) in Hl; [discriminate | by left].
Qed.

(** X10: With a chat backend and a message that is not blank, /chat calls the
    backend once, with the system prompt built from the current slot and
    the stripped message; it answers 200 with the first choice, or 500 with
    the fixed 'temporarily unavailable' reply when the call raises or
    returns no choice.  Slot, disk and clock are untouched. *)
Theorem chat_forwards e client request_json message w :
  groq_client e = Some client ->
  dict_get request_json "message" (VStr "") = VStr message ->
  ~ blank message ->
  let prompt := App.system_prompt_of (App.context_of e (latest_analysis w)) in
  let r := App.chat e request_json w in
  r.2 = {| latest_analysis := latest_analysis w; disk := disk w;
           ticks := ticks w;
           calls := CallGroq prompt (Py.strip message) :: calls w |}
  /\ match client prompt (Py.strip message) with
     | inr (reply :: _) => r.1 = jsonify {[ "reply" := VStr reply ]} 200
     | _ =>
         r.1 = jsonify
                 {[ "reply" :=
                      VStr "AI assistant is temporarily unavailable. Please try again later." ]}
                 500
     end.
Proof.
  intros Hc Hm Hnb. cbv zeta. destruct w as [la d t c].
  unfold App.chat. rewrite Hc, Hm.
  destruct (Py.truthy (Py.strip message)) eqn:Ht.
  - run_handler.
    destruct (client _ _) as [err | [ | reply replies]]; by split.
  - exfalso. apply Hnb, strip_empty_blank.
    by destruct (Py.strip message).
Qed.

Lemma chat_forwards_witness :
  (App.chat (demo_env (92 # 100) (12 # 100) (Some demo_groq))
     {[ "message" := VStr " What is pneumonia? " ]} (startup ∅)).1
  = jsonify {[ "reply" := VStr "I am an AI, not a doctor." ]} 200.
Proof.
  destruct (chat_forwards (demo_env (92 # 100) (12 # 100) (Some demo_groq))
              demo_groq {[ "message" := VStr " What is pneumonia? " ]}
              " What is pneumonia? " (startup ∅)) as (_ & Hr).
  - reflexivity.
  - reflexivity.
  - intros H. specialize (H "W"%char). cbn in H.
    assert (Hf : false = true) by (apply H; auto). discriminate.
  - exact Hr.
Defined.

(** X11: With a chat backend and a string (or missing) message, /chat answers
    400 exactly when the message is empty or only whitespace. *)
Theorem chat_400_iff_blank e client request_json message w :
  groq_client e = Some client ->
  dict_get request_json "message" (VStr "") = VStr message ->
  resp_status (App.chat e request_json w).1 = 400%Z <-> blank message.
Proof.
  intros Hc Hm. unfold App.chat. rewrite Hc, Hm. split.
  - destruct (Py.truthy (Py.strip message)) eqn:Ht.
    + run_handler.
      destruct (client _ _) as [err | [ | reply replies]]; discriminate.
    + intros _. apply strip_empty_blank. by destruct (Py.strip message).
  - intros Hb. by rewrite (strip_blank _ Hb).
Qed.

Lemma chat_400_iff_blank_witness :
  resp_status
    (App.chat (demo_env (92 # 100) (12 # 100) (Some demo_groq))
       ∅ (startup ∅)).1 = 400%Z <-> blank "".
Proof.
  apply (chat_400_iff_blank (demo_env (92 # 100) (12 # 100) (Some demo_groq))
           demo_groq ∅ "" (startup ∅)).
  - reflexivity.
  - reflexivity.
Defined.

(** X12: A chat that follows a successful /predict sends the backend a system
    prompt that quotes that analysis: patient (or 'the patient'), label,
    confidence, the two percentages and the time of the analysis. *)
Theorem chat_after_predict e client request request_json message
    w file img s p :
  accepted e request file img ->
  App.score00 (xray_model_predict e (processed_of img)) = inr s ->
  (1 # 2 <= s)%Q ->
  App.score00 (pneumonia_model_predict e (processed_of img)) = inr p ->
  groq_client e = Some client ->
  dict_get request_json "message" (VStr "") = VStr message ->
  ~ blank message ->
  let w1 := (App.predict e request w).2 in
  let context :=
    "Current Analysis Report:" +:+ Py.nl
    +:+ "- Patient: "
    +:+ Py.str_or (Py.strip (form_get request "patient_name")) "the patient"
    +:+ Py.nl
    +:+ "- Prediction: " +:+ (stage2_result p).1 +:+ Py.nl
    +:+ "- Confidence: " +:+ str_of_number e (stage2_result p).2
    +:+ "%" +:+ Py.nl
    +:+ "- Pneumonia Probability: "
    +:+ str_of_number e (Py.round (p * 100) 2) +:+ "%" +:+ Py.nl
    +:+ "- Normal Probability: "
    +:+ str_of_number e (Py.round ((1 - p) * 100) 2) +:+ "%" +:+ Py.nl
    +:+ "- Analysis Time: "
    +:+ strftime_now e (S (ticks w)) "%Y-%m-%d %H:%M:%S" +:+ Py.nl in
  calls (App.chat e request_json w1).2
  = CallGroq (App.system_prompt_of context) (Py.strip message) :: calls w1.
Proof.
  intros Hacc Hs Hge Hp Hc Hm Hnb. cbv zeta.
  pose proof (predict_success_slot e request w _ _ _ _ Hacc Hs Hge Hp) as Hla.
  set (w1 := (App.predict e request w).2) in *.
  assert (Hcalls :
    calls (App.chat e request_json w1).2
    = CallGroq (App.system_prompt_of (App.context_of e (latest_analysis w1)))
        (Py.strip message) :: calls w1).
  { destruct w1 as [la d t c]. unfold App.chat. rewrite Hc, Hm.
    destruct (Py.truthy (Py.strip message)) eqn:Ht.
    - run_handler.
      destruct (client _ _) as [err | [ | reply replies]]; reflexivity.
    - exfalso. apply Hnb, strip_empty_blank.
      by destruct (Py.strip message). }
  rewrite Hcalls. do 2 f_equal.
  rewrite Hla. unfold App.context_of.
  rewrite bool_decide_eq_true_2 by apply insert_non_empty.
  unfold dict_get. by simplify_map_eq.
Qed.

Lemma chat_after_predict_witness :
  exists prompt,
    calls (App.chat (demo_env (92 # 100) (12 # 100) (Some demo_groq))
             {[ "message" := VStr "hello" ]}
             (App.predict (demo_env (92 # 100) (12 # 100) (Some demo_groq))
                (demo_request "Ada" (demo_file "scan.png" [Byte.x01]))
                (startup ∅)).2).2
    = CallGroq prompt "hello"
      :: calls (App.predict (demo_env (92 # 100) (12 # 100) (Some demo_groq))
                  (demo_request "Ada" (demo_file "scan.png" [Byte.x01]))
                  (startup ∅)).2.
Proof.
  eexists.
  apply (chat_after_predict (demo_env (92 # 100) (12 # 100) (Some demo_groq))
           demo_groq (demo_request "Ada" (demo_file "scan.png" [Byte.x01]))
           {[ "message" := VStr "hello" ]} "hello" (startup ∅)
           (demo_file "scan.png" [Byte.x01]) [255%Z; 0%Z]
           (92 # 100) (12 # 100)).
  - repeat split; vm_compute; reflexivity.
  - reflexivity.
  - vm_compute. discriminate.
  - reflexivity.
  - reflexivity.
  - reflexivity.
  - intros H. specialize (H "h"%char). cbn in H.
    assert (Hf : false = true) by (apply H; auto). discriminate.
Defined.

(** ** Runs of the server *)

Lemma handle_keeps_slot e rq w :
  is_predict rq = false ->
  latest_analysis (handle e rq w).2 = latest_analysis w.
Proof.
  destruct rq as [ | r | j | d]; cbn [handle is_predict]; intros H.
  - reflexivity.
  - discriminate.
  - apply chat_keeps_slot.
  - apply download_report_keeps_slot.
Qed.

(** X13: Only /predict writes the slot: a run without /predict requests leaves
    it as it was. *)
Theorem slot_written_only_by_predict e rqs w :
  forallb (fun rq => negb (is_predict rq)) rqs = true ->
  latest_analysis (serve e rqs w) = latest_analysis w.
Proof.
  revert w. induction rqs as [ | rq rest IH]; intros w H; cbn [serve].
  - reflexivity.
  - cbn [forallb] in H. apply andb_true_iff in H as [Hrq Hrest].
    rewrite (IH _ Hrest). apply handle_keeps_slot.
    by apply negb_true_iff in Hrq.
Qed.

Lemma slot_written_only_by_predict_witness :
  latest_analysis
    (serve (demo_env (92 # 100) (12 # 100) (Some demo_groq))
       [PostChat {[ "message" := VStr "hello" ]};
        PostDownloadReport (demo_payload "scan.png"); GetIndex]
       (startup ∅)) = ∅.
Proof.
  apply (slot_written_only_by_predict
           (demo_env (92 # 100) (12 # 100) (Some demo_groq))
           [PostChat {[ "message" := VStr "hello" ]};
            PostDownloadReport (demo_payload "scan.png"); GetIndex]
           (startup ∅)).
  reflexivity.
Defined.

(** X14: Until a /predict request is served, a chat is sent to the backend with
    the 'No analysis report is currently available.' context. *)
Theorem chat_before_any_predict e client d rqs request_json message :
  forallb (fun rq => negb (is_predict rq)) rqs = true ->
  groq_client e = Some client ->
  dict_get request_json "message" (VStr "") = VStr message ->
  ~ blank message ->
  let w := serve e rqs (startup d) in
  calls (App.chat e request_json w).2
  = CallGroq
      (App.system_prompt_of
         ("No analysis report is currently available." +:+ Py.nl))
      (Py.strip message)
    :: calls w.
Proof.
  intros Hrqs Hc Hm Hnb. cbv zeta.
  assert (Hla : forall w0, latest_analysis w0 = ∅ ->
                      latest_analysis (serve e rqs w0) = ∅).
  { clear -Hrqs. induction rqs as [ | rq rest IH]; intros w Hw; cbn [serve].
    - exact Hw.
    - cbn [forallb] in Hrqs. apply andb_true_iff in Hrqs as [Hrq Hrest].
      apply (IH Hrest).
      rewrite handle_keeps_slot; [exact Hw | by apply negb_true_iff in Hrq]. }
  specialize (Hla (startup d) eq_refl).
  destruct (serve e rqs (startup d)) as [la dk t c]. cbn [latest_analysis] in Hla.
  subst la. unfold App.chat. rewrite Hc, Hm.
  destruct (Py.truthy (Py.strip message)) eqn:Ht.
  - run_handler.
    destruct (client _ _) as [err | [ | reply replies]]; reflexivity.
  - exfalso. apply Hnb, strip_empty_blank.
    by destruct (Py.strip message).
Qed.

Lemma chat_before_any_predict_witness :
  calls (App.chat (demo_env (92 # 100) (12 # 100) (Some demo_groq))
           {[ "message" := VStr "hello" ]}
           (serve (demo_env (92 # 100) (12 # 100) (Some demo_groq))
              [GetIndex] (startup ∅))).2
  = [CallGroq
       (App.system_prompt_of
          ("No analysis report is currently available." +:+ Py.nl))
       "hello"].
Proof.
  apply (chat_before_any_predict
           (demo_env (92 # 100) (12 # 100) (Some demo_groq)) demo_groq ∅
           [GetIndex] {[ "message" := VStr "hello" ]} "hello").
  - reflexivity.
  - reflexivity.
  - reflexivity.
  - intros H. specialize (H "h"%char). cbn in H.
    assert (Hf : false = true) by (apply H; auto). discriminate.
Defined.

Lemma predict_disk_cases e request w :
  disk (App.predict e request w).2 = disk w
  \/ exists path f, disk (App.predict e request w).2 = <[path := f]> (disk w).
Proof.
  destruct w as [la d t c]. unfold App.predict.
  destruct (files request !! "xray") as [file | ]; [ | by left].
  destruct (negb (Py.truthy (filename file))
            || negb (App.allowed_file (filename file))); [by left | ].
  right. run_handler. rewrite lookup_insert_eq. eexists _, _.
  destruct (image_open_rgb_224 e (stream file)) as [err | img]; [reflexivity | ].
  destruct (App.score00 (xray_model_predict e _)) as [err | s];
    [reflexivity | ].
  destruct (Py.ltb s App.XRAY_THRESHOLD); [reflexivity | ].
  destruct (App.score00 (pneumonia_model_predict e _)) as [err | p];
    [reflexivity | ].
  destruct (Py.gtb p (1 # 2)); reflexivity.
Qed.

Lemma chat_keeps_disk e request_json w :
  disk (App.chat e request_json w).2 = disk w.
Proof.
  destruct w as [la d t c]. unfold App.chat.
  destruct (groq_client e) as [client | ]; [ | reflexivity].
  destruct (dict_get request_json "message" (VStr "")) as [ | message | q];
    try reflexivity.
  destruct (negb (Py.truthy (Py.strip message))); [reflexivity | ].
  run_handler.
  destruct (client _ _) as [err | [ | reply replies]]; reflexivity.
Qed.

Lemma generate_report_disk_cases e path v1 v2 v3 v4 v5 v6 v7 image_path w :
  disk (PdfReport.generate_report e path v1 v2 v3 v4 v5 v6 v7 image_path w).2
  = disk w
  \/ exists els,
       disk (PdfReport.generate_report e path v1 v2 v3 v4 v5 v6 v7
               image_path w).2
       = <[path := ReportPdf els]> (disk w).
Proof.
  destruct w as [la d t c]. unfold PdfReport.generate_report.
  run_handler. destruct (PdfReport.build_chart e v6 v7); [by left | ].
  destruct (forallb _ _); [right; by eexists | by left].
Qed.

Lemma download_report_disk_cases e data w :
  disk (App.download_report e data w).2 = disk w
  \/ exists path f,
       disk (App.download_report e data w).2 = <[path := f]> (disk w).
Proof.
  unfold App.download_report.
  destruct (if value_truthy _ then _ else _) as [err | image_path];
    [by left | ].
  cbv [mbind M_bind mret M_ret get_world uuid4 tick].
  match goal with
  | |- context [PdfReport.generate_report ?e ?a ?b ?c ?d ?f ?g ?h ?i ?j ?k] =>
      pose proof (generate_report_disk_cases e a b c d f g h i j k) as Hg;
      destruct (PdfReport.generate_report e a b c d f g h i j k) as [r w1]
  end.
  cbn [snd disk] in Hg.
  destruct r as [err | []].
  - destruct Hg as [Hg | (els & Hg)]; [by left | right; by eexists _, _].
  - destruct (disk w1 !! _);
      (destruct Hg as [Hg | (els & Hg)]; [by left | right; by eexists _, _]).
Qed.

(** X15: No request ever removes a file: every path that holds a file keeps
    holding one through any run. *)
Theorem disk_never_shrinks e rqs w :
  dom (disk w) ⊆ dom (disk (serve e rqs w)).
Proof.
  revert w. induction rqs as [ | rq rest IH]; intros w; cbn [serve].
  - reflexivity.
  - etrans; [ | apply IH].
    assert (H : disk (handle e rq w).2 = disk w
                \/ exists path f,
                     disk (handle e rq w).2 = <[path := f]> (disk w)).
    { destruct rq as [ | r | j | d]; cbn [handle].
      - by left.
      - apply predict_disk_cases.
      - left. apply chat_keeps_disk.
      - apply download_report_disk_cases. }
    destruct H as [-> | (path & f & ->)]; [reflexivity | ].
    rewrite dom_insert_L. set_solver.
Qed.

(** ** Further properties of /download-report and of the report builder *)

(** X16: [generate_report] raises before anything is written when one of the
    two probabilities is not a number: the disk is left as it was. *)
Theorem generate_report_bad_probability e path v1 v2 v3 v4 v5 pn nn
    image_path w :
  (forall q, pn <> VNum q) \/ (forall q, nn <> VNum q) ->
  exists err,
    (PdfReport.generate_report e path v1 v2 v3 v4 v5 pn nn image_path w).1
    = inl err
    /\ disk (PdfReport.generate_report e path v1 v2 v3 v4 v5 pn nn
               image_path w).2
       = disk w.
Proof.
  intros H. destruct w as [la d t c].
  unfold PdfReport.generate_report, PdfReport.build_chart. run_handler.
  destruct nn as [ | ? | qn]; try (eexists; by split).
  destruct pn as [ | ? | qp]; try (eexists; by split).
  exfalso. destruct H as [H | H]; by eapply H.
Qed.

Lemma generate_report_bad_probability_witness :
  exists err,
    (PdfReport.generate_report (demo_env (92 # 100) (12 # 100) None)
       "static/uploads/report_01234567.pdf" (VStr "Ada") (VStr "36")
       (VStr "") (VStr "NORMAL") (VNum (88 # 1)) (VStr "12.0") (VNum (88 # 1))
       None (startup ∅)).1 = inl err
    /\ disk (PdfReport.generate_report (demo_env (92 # 100) (12 # 100) None)
               "static/uploads/report_01234567.pdf" (VStr "Ada") (VStr "36")
               (VStr "") (VStr "NORMAL") (VNum (88 # 1)) (VStr "12.0")
               (VNum (88 # 1)) None (startup ∅)).2
       = ∅.
Proof.
  apply (generate_report_bad_probability (demo_env (92 # 100) (12 # 100) None)
           "static/uploads/report_01234567.pdf" (VStr "Ada") (VStr "36")
           (VStr "") (VStr "NORMAL") (VNum (88 # 1)) (VStr "12.0")
           (VNum (88 # 1)) None (startup ∅)).
  left. intros q. discriminate.
Defined.










(** X25: When the chart of a well-formed payload does not render, or the
    image it names exists but cannot be read by the PDF builder, the
    exception is not caught: /download-report answers 500 and writes no
    file. *)
Theorem download_report_unrendered e data w :
  well_formed_payload data ->
  (chart_renders e (num_of_field data "pneumonia_prob")
     (num_of_field data "normal_prob") = false
   \/ exists p f, report_image e data w = Some (p, f)
                  /\ rl_image_ok e p f = true
                  /\ rl_image_loads e p f = false) ->
  (App.download_report e data w).1
  = {| resp_body := InternalServerError; resp_status := 500 |}
  /\ disk (App.download_report e data w).2 = disk w.
Proof.
  intros (_ & _ & _ & _ & _ & Hpn & Hnn & Hname) Hfail.
  destruct w as [la d t c].
  unfold App.download_report.
  rewrite (dict_get_num _ _ Hpn), (dict_get_num _ _ Hnn).
  revert Hfail. unfold report_image, dict_get. unfold str_field in Hname.
  destruct (data !! "image_filename") as [[ | name | q] | ]; try done.
  all: cbn [value_truthy Py.truthy disk ticks].
  all: try destruct (Py.truthy name).
  all: intros Hfail.
  all: cbv [mbind M_bind mret M_ret get_world uuid4 tick disk ticks
            latest_analysis calls].
  all: try destruct (d !! Py.path_join (UPLOAD_FOLDER e) name) as [f | ] eqn:Hd.
  all: try (rewrite bool_decide_eq_true_2 by (by eexists)).
  all: try (rewrite bool_decide_eq_false_2 by (by intros [? ?])).
  all: unfold PdfReport.generate_report, PdfReport.build_chart.
  all: destruct (chart_renders e _ _) eqn:Hchart;
    [ | run_handler; by split ].
  all: destruct Hfail as [Hfail | (p & f' & Himg & Hok & Hloads)];
    try discriminate.
  injection Himg as <- <-.
  run_handler. rewrite Hd, Hok.
  rewrite !forallb_app. cbn [forallb PdfReport.image_loads disk andb].
  rewrite Hd, Hloads. cbn [andb]. by split.
Qed.


Lemma download_report_unrendered_witness :
  (App.download_report (demo_env (92 # 100) (12 # 100) None)
     (<[ "normal_prob" := VNum (100000 # 1) ]> (demo_payload ""))
     (startup ∅)).1
  = {| resp_body := InternalServerError; resp_status := 500 |}
  /\ disk (App.download_report (demo_env (92 # 100) (12 # 100) None)
             (<[ "normal_prob" := VNum (100000 # 1) ]> (demo_payload ""))
             (startup ∅)).2 = ∅.
Proof.
  apply (download_report_unrendered (demo_env (92 # 100) (12 # 100) None)
           (<[ "normal_prob" := VNum (100000 # 1) ]> (demo_payload ""))
           (startup ∅)).
  - repeat split; vm_compute; exact I.
  - left. reflexivity.
Defined.

(** ** Further properties of the handler of utils/app.py *)

(** X21: utils/app.py validates uploads like app.py: an absent file part or a
    name whose last extension is not allowed gets the 400 error, and
    nothing is saved. *)
Theorem utils_predict_rejects_upload e request w :
  match files request !! "xray" with
  | None => True
  | Some file => ~ extension_allowed (filename file)
  end ->
  UtilsApp.predict e request w
  = (jsonify
       {[ "error" :=
            VStr "Please upload a valid image (png, jpg, jpeg, bmp, webp)." ]}
       400,
     w).
Proof.
  unfold UtilsApp.predict.
  destruct (files request !! "xray") as [file | ]; [ | reflexivity].
  intros H.
  change (UtilsApp.allowed_file (filename file))
    with (App.allowed_file (filename file)).
  destruct (App.allowed_file (filename file)) eqn:Ha.
  - exfalso. by apply H, allowed_file_spec.
  - rewrite orb_true_r. reflexivity.
Qed.

Lemma utils_predict_rejects_upload_witness :
  UtilsApp.predict (demo_env (92 # 100) (12 # 100) None)
    (demo_request "Ada" (demo_file "scan.gif" [Byte.x01])) (startup ∅)
  = (jsonify
       {[ "error" :=
            VStr "Please upload a valid image (png, jpg, jpeg, bmp, webp)." ]}
       400,
     startup ∅).
Proof.
  apply (utils_predict_rejects_upload (demo_env (92 # 100) (12 # 100) None)
           (demo_request "Ada" (demo_file "scan.gif" [Byte.x01]))
           (startup ∅)).
  change (~ extension_allowed "scan.gif").
  rewrite <- allowed_file_spec. vm_compute. discriminate.
Defined.

(** X22: The two handlers treat an upload that does not decode differently:
    app.py answers 200 with the 'Invalid Image' payload, utils/app.py
    answers 500 with the decoder's error text. *)
Theorem undecodable_upload_two_handlers e request w file err :
  files request !! "xray" = Some file ->
  App.allowed_file (filename file) = true ->
  image_open_rgb_224 e (stream file) = inl err ->
  (App.predict e request w).1 = App.could_not_process
  /\ resp_status (App.predict e request w).1 = 200%Z
  /\ (UtilsApp.predict e request w).1
     = jsonify {[ "error" := VStr err ]} 500.
Proof.
  intros Hf Ha Hi. destruct w as [la d t c]. split; [ | split].
  - unfold App.predict. rewrite Hf, (allowed_file_truthy _ Ha), Ha.
    run_handler. by rewrite lookup_insert_eq, Hi.
  - unfold App.predict. rewrite Hf, (allowed_file_truthy _ Ha), Ha.
    run_handler. by rewrite lookup_insert_eq, Hi.
  - unfold UtilsApp.predict. rewrite Hf, (allowed_file_truthy _ Ha).
    change (UtilsApp.allowed_file (filename file))
      with (App.allowed_file (filename file)).
    rewrite Ha. run_handler. by rewrite lookup_insert_eq, Hi.
Qed.

Lemma undecodable_upload_two_handlers_witness :
  resp_status
    (App.predict (demo_env (92 # 100) (12 # 100) None)
       (demo_request "Ada" (demo_file "scan.png" [])) (startup ∅)).1
  = 200%Z
  /\ resp_status
       (UtilsApp.predict (demo_env (92 # 100) (12 # 100) None)
          (demo_request "Ada" (demo_file "scan.png" [])) (startup ∅)).1
     = 500%Z.
Proof.
  destruct (undecodable_upload_two_handlers
              (demo_env (92 # 100) (12 # 100) None)
              (demo_request "Ada" (demo_file "scan.png" [])) (startup ∅)
              (demo_file "scan.png" []) "cannot identify image file")
    as (_ & H1 & H2).
  - reflexivity.
  - reflexivity.
  - reflexivity.
  - split; [exact H1 | by rewrite H2].
Defined.

(** X23: When the model of utils/app.py raises, the handler answers 500 with
    the error text; the upload stays on disk. *)
Theorem utils_predict_model_failure e request w file img err :
  accepted e request file img ->
  model_predict e (processed_of img) = inl err ->
  UtilsApp.predict e request w
  = (jsonify {[ "error" := VStr err ]} 500,
     {| latest_analysis := latest_analysis w;
        disk := <[saved_path e w file := Uploaded (stream file)]> (disk w);
        ticks := S (ticks w);
        calls := CallModel (processed_of img) :: calls w |}).
Proof.
  intros (Hf & Ha & Hi) Hm. destruct w as [la d t c].
  unfold UtilsApp.predict. rewrite Hf, (allowed_file_truthy _ Ha).
  change (UtilsApp.allowed_file (filename file))
    with (App.allowed_file (filename file)).
  rewrite Ha. run_handler. rewrite lookup_insert_eq, Hi.
  fold (processed_of img). by rewrite Hm.
Qed.

Lemma utils_predict_model_failure_witness :
  (UtilsApp.predict (failing_env (Some (92 # 100)) None)
     (demo_request "Ada" (demo_file "scan.png" [Byte.x01])) (startup ∅)).1
  = jsonify {[ "error" := VStr "OOM when allocating tensor" ]} 500.
Proof.
  rewrite (utils_predict_model_failure (failing_env (Some (92 # 100)) None)
             (demo_request "Ada" (demo_file "scan.png" [Byte.x01]))
             (startup ∅) (demo_file "scan.png" [Byte.x01]) [255%Z; 0%Z]
             "OOM when allocating tensor").
  - reflexivity.
  - repeat split; vm_compute; reflexivity.
  - reflexivity.
Defined.

(** X24: A two-output (softmax) model: utils/app.py reads the normal
    probability at [0][0] and the pneumonia probability at [0][1], labels
    PNEUMONIA when the latter is at least 0.5, and reports the larger of
    the two as the confidence. *)
Theorem utils_predict_two_output e request w file img a n p rest more :
  accepted e request file img ->
  model_predict e (processed_of img) = inr a ->
  shape_last a <> 1 ->
  rows a = (n :: p :: rest) :: more ->
  exists u,
    (UtilsApp.predict e request w).1 = jsonify u 200
    /\ u !! "prediction"
       = Some (VStr (if Py.geb p (1 # 2) then "PNEUMONIA" else "NORMAL"))
    /\ u !! "confidence" = Some (VNum (Py.round (Py.max p n * 100) 2))
    /\ u !! "pneumonia_prob" = Some (VNum (Py.round (p * 100) 2))
    /\ u !! "normal_prob" = Some (VNum (Py.round (n * 100) 2)).
Proof.
  intros (Hf & Ha & Hi) Hm Hshape Hrows. destruct w as [la d t c].
  unfold UtilsApp.predict. rewrite Hf, (allowed_file_truthy _ Ha).
  change (UtilsApp.allowed_file (filename file))
    with (App.allowed_file (filename file)).
  rewrite Ha. run_handler. rewrite lookup_insert_eq, Hi.
  fold (processed_of img). rewrite Hm.
  unfold UtilsApp.probabilities, item00, item01. rewrite Hrows.
  apply Nat.eqb_neq in Hshape. rewrite Hshape. cbn [fst].
  eexists. split; [reflexivity | ].
  repeat split; by simplify_map_eq.
Qed.

Lemma utils_predict_two_output_witness :
  exists u,
    (UtilsApp.predict (softmax_env (3 # 10) (7 # 10))
       (demo_request "Ada" (demo_file "scan.png" [Byte.x01])) (startup ∅)).1
    = jsonify u 200
    /\ u !! "prediction" = Some (VStr "PNEUMONIA")
    /\ u !! "confidence" = Some (VNum (Py.round (Py.max (7 # 10) (3 # 10) * 100) 2)).
Proof.
  destruct (utils_predict_two_output (softmax_env (3 # 10) (7 # 10))
              (demo_request "Ada" (demo_file "scan.png" [Byte.x01]))
              (startup ∅) (demo_file "scan.png" [Byte.x01]) [255%Z; 0%Z]
              {| shape_last := 2; rows := [[3 # 10; 7 # 10]] |}
              (3 # 10) (7 # 10) [] [])
    as (u & Hr & Hl & Hc & _).
  - repeat split; vm_compute; reflexivity.
  - reflexivity.
  - discriminate.
  - reflexivity.
  - exists u. split; [exact Hr | ]. split; [exact Hl | exact Hc].
Defined.
